(** * VolleyVision: calibration, trail recording and rep metrics

    A shallow embedding of [sketch.js]: the four-click net calibration, the
    rep recorder driven by mouse and keyboard, the per-rep metrics and the
    summary computed for the stats table.

    Numbers.  A JavaScript number is modelled by [jsnum]: an exact rational
    ([Fin q], [q : Qc]) or one of the three non-finite values [PInf], [NInf]
    and [NaN].  The arithmetic on the non-finite values and on division by
    zero follows IEEE 754 as JavaScript has it; on finite values it is exact
    (no rounding, no overflow), and zero carries no sign (it behaves as +0).
    Mouse coordinates and video timestamps are finite, hence of type [Qc].
    [null] and [undefined] are both [None].

    State.  The global variables are the fields of [Session]; a handler is
    a function from sessions to sessions.  Of the video element the model
    keeps the paused flag, the time and the duration; of the stats div its
    visibility and the values that the table prints.  Of the draw loop,
    the buttons and the timer of [primeVideo] the model keeps what they
    change of the globals; the drawing itself (frames, banner, HUD, paths,
    the HTML of the table, the saved snapshot) is outside the model. *)

From Stdlib Require Import ZArith QArith Qcanon Qround List Bool String Lia Lqa.
Import ListNotations.

Local Open Scope Qc_scope.

(** ** JavaScript numbers *)

Module JS.

Inductive jsnum : Type :=
| Fin (q : Qc)
| PInf
| NInf
| NaN.

Definition Qcltb (a b : Qc) : bool :=
  match a ?= b with Lt => true | _ => false end.

Definition Qceqb (a b : Qc) : bool :=
  match a ?= b with Eq => true | _ => false end.

(** The rational [n / d]. *)
Definition qc (n : Z) (d : positive) : Qc := Q2Qc (n # d).

(** The number of an integer literal. *)
Definition ofZ (z : Z) : jsnum := Fin (qc z 1).

Definition Qcabs (q : Qc) : Qc := if Qcltb q 0 then - q else q.

(** Unary minus. *)
Definition neg (a : jsnum) : jsnum :=
  match a with
  | Fin q => Fin (- q)
  | PInf => NInf
  | NInf => PInf
  | NaN => NaN
  end.

(** [a + b] *)
Definition add (a b : jsnum) : jsnum :=
  match a, b with
  | NaN, _ | _, NaN => NaN
  | Fin p, Fin q => Fin (p + q)
  | PInf, NInf | NInf, PInf => NaN
  | PInf, _ | _, PInf => PInf
  | NInf, _ | _, NInf => NInf
  end.

(** [a - b] *)
Definition sub (a b : jsnum) : jsnum := add a (neg b).

(** The sign of an infinite product or quotient: [pos] says whether the
    result is positive. *)
Definition inf_of_sign (pos : bool) : jsnum := if pos then PInf else NInf.

(** [a * b]; infinity times zero is [NaN]. *)
Definition mul (a b : jsnum) : jsnum :=
  match a, b with
  | NaN, _ | _, NaN => NaN
  | Fin p, Fin q => Fin (p * q)
  | Fin p, PInf | PInf, Fin p =>
      if Qceqb p 0 then NaN else inf_of_sign (Qcltb 0 p)
  | Fin p, NInf | NInf, Fin p =>
      if Qceqb p 0 then NaN else inf_of_sign (Qcltb p 0)
  | PInf, PInf | NInf, NInf => PInf
  | PInf, NInf | NInf, PInf => NInf
  end.

(** [a / b]; a finite non-zero number over zero is an infinity of the sign
    of the numerator, zero over zero is [NaN], a finite number over an
    infinity is zero. *)
Definition div (a b : jsnum) : jsnum :=
  match a, b with
  | NaN, _ | _, NaN => NaN
  | Fin p, Fin q =>
      if Qceqb q 0
      then (if Qceqb p 0 then NaN else inf_of_sign (Qcltb 0 p))
      else Fin (p / q)
  | Fin _, PInf | Fin _, NInf => Fin 0
  | PInf, Fin q => inf_of_sign (negb (Qcltb q 0))
  | NInf, Fin q => inf_of_sign (Qcltb q 0)
  | PInf, PInf | PInf, NInf | NInf, PInf | NInf, NInf => NaN
  end.

(** [Math.abs] *)
Definition abs (a : jsnum) : jsnum :=
  match a with
  | Fin q => Fin (Qcabs q)
  | PInf | NInf => PInf
  | NaN => NaN
  end.

(** [a > b]; every comparison with [NaN] is false. *)
Definition gt (a b : jsnum) : bool :=
  match a, b with
  | NaN, _ | _, NaN => false
  | Fin p, Fin q => Qcltb q p
  | PInf, PInf => false
  | PInf, _ => true
  | NInf, _ => false
  | Fin _, NInf => true
  | Fin _, PInf => false
  end.

(** [isFinite] *)
Definition isFinite (a : jsnum) : bool :=
  match a with Fin _ => true | _ => false end.

(** [Math.round]: the nearest integer, halves towards +Infinity. *)
Definition round (a : jsnum) : jsnum :=
  match a with
  | Fin q => ofZ (Qfloor (q + qc 1 2))
  | _ => a
  end.

(** Truthiness of a number: [0] and [NaN] are falsy. *)
Definition truthy (a : jsnum) : bool :=
  match a with
  | Fin q => negb (Qceqb q 0)
  | NaN => false
  | PInf | NInf => true
  end.

End JS.

Import JS.

(** ** Global constants *)

(** [NET_HEIGHT_M = 2.43] *)
Definition NET_HEIGHT_M : jsnum := Fin (qc 243 100).

Definition Colour : Type := list Z.

Definition PALETTE : list Colour :=
  [ [255; 80; 80];
    [255; 160; 0];
    [255; 220; 0];
    [0; 190; 255];
    [80; 220; 160];
    [180; 120; 255];
    [255; 100; 200] ]%Z.

(** [ENTER], the key code p5.js gives the Enter key. *)
Definition ENTER : Z := 13%Z.

(** ** Data *)

(** A calibration click [{ x, y }]. *)
Record Point : Type := mkPoint { ptx : Qc; pty : Qc }.

(** A recorded click [{ x, y, t }]. *)
Record RepPoint : Type := mkRepPoint { x : Qc; y : Qc; t : Qc }.

(** [rep.direction]: the arrows U+2192 and U+2190 and the bullet U+2022. *)
Inductive Direction : Type := ArrowRight | ArrowLeft | Bullet.

(** A rep [{ points, color }] and the four properties that
    [computeAllRepMetrics] adds to it. *)
Record Rep : Type := mkRep {
  points : list RepPoint;
  color : option Colour;
  peakM : option jsnum;
  aboveNetCM : option jsnum;
  widthM : option jsnum;
  direction : option Direction
}.

(** [{ points: [], color: c }] *)
Definition newRep (c : option Colour) : Rep := mkRep [] c None None None None.

(** [calibPts = { LB, LT, RB, RT }] *)
Record CalibPts : Type := mkCalibPts {
  LB : option Point;
  LT : option Point;
  RB : option Point;
  RT : option Point
}.

(** [topLine = { m, b }] *)
Record Line : Type := mkLine { m : jsnum; b : jsnum }.

(** What the program observes and changes of the video element. *)
Record Video : Type := mkVideo {
  paused : bool;
  time : Qc;
  duration : Qc
}.

(** The values [renderStatsTable] prints below the table. *)
Record Summary : Type := mkSummary {
  bestIdx : Z;
  bestVal : jsnum;
  avgPeak : option jsnum;
  avgWidth : option jsnum
}.

(** The stats div: whether it is displayed ([block] or [none]) and its
    content ([None] for the empty string). *)
Record StatsDiv : Type := mkStatsDiv {
  display : bool;
  html : option Summary
}.

(** The label of the toggle button. *)
Inductive ToggleLabel : Type := LabelToggle | LabelHide | LabelShow.

(** The global variables of the sketch. *)
Record Session : Type := mkSession {
  vid : Video;
  ready : bool;
  warmed : bool;
  started : bool;
  trails : list Rep;
  current : Rep;
  showAllAtEnd : bool;
  showTrails : bool;
  calibStep : nat;
  calibPts : CalibPts;
  pixelsPerMeter : option jsnum;
  topLine : option Line;
  statsDiv : StatsDiv;
  statsVisible : bool;
  buttonsShown : bool;
  toggleLabel : ToggleLabel;
  paletteIdx : nat;
  primeTimers : nat
}.

(** Assignments to the globals. *)
Definition set_vid (v : Video) (s : Session) : Session :=
  mkSession v (ready s) (warmed s) (started s) (trails s) (current s)
    (showAllAtEnd s) (showTrails s) (calibStep s) (calibPts s)
    (pixelsPerMeter s) (topLine s) (statsDiv s) (statsVisible s)
    (buttonsShown s) (toggleLabel s) (paletteIdx s) (primeTimers s).

Definition set_ready (v : bool) (s : Session) : Session :=
  mkSession (vid s) v (warmed s) (started s) (trails s) (current s)
    (showAllAtEnd s) (showTrails s) (calibStep s) (calibPts s)
    (pixelsPerMeter s) (topLine s) (statsDiv s) (statsVisible s)
    (buttonsShown s) (toggleLabel s) (paletteIdx s) (primeTimers s).

Definition set_warmed (v : bool) (s : Session) : Session :=
  mkSession (vid s) (ready s) v (started s) (trails s) (current s)
    (showAllAtEnd s) (showTrails s) (calibStep s) (calibPts s)
    (pixelsPerMeter s) (topLine s) (statsDiv s) (statsVisible s)
    (buttonsShown s) (toggleLabel s) (paletteIdx s) (primeTimers s).

Definition set_started (v : bool) (s : Session) : Session :=
  mkSession (vid s) (ready s) (warmed s) v (trails s) (current s)
    (showAllAtEnd s) (showTrails s) (calibStep s) (calibPts s)
    (pixelsPerMeter s) (topLine s) (statsDiv s) (statsVisible s)
    (buttonsShown s) (toggleLabel s) (paletteIdx s) (primeTimers s).

Definition set_trails (v : list Rep) (s : Session) : Session :=
  mkSession (vid s) (ready s) (warmed s) (started s) v (current s)
    (showAllAtEnd s) (showTrails s) (calibStep s) (calibPts s)
    (pixelsPerMeter s) (topLine s) (statsDiv s) (statsVisible s)
    (buttonsShown s) (toggleLabel s) (paletteIdx s) (primeTimers s).

Definition set_current (v : Rep) (s : Session) : Session :=
  mkSession (vid s) (ready s) (warmed s) (started s) (trails s) v
    (showAllAtEnd s) (showTrails s) (calibStep s) (calibPts s)
    (pixelsPerMeter s) (topLine s) (statsDiv s) (statsVisible s)
    (buttonsShown s) (toggleLabel s) (paletteIdx s) (primeTimers s).

Definition set_showAllAtEnd (v : bool) (s : Session) : Session :=
  mkSession (vid s) (ready s) (warmed s) (started s) (trails s) (current s)
    v (showTrails s) (calibStep s) (calibPts s)
    (pixelsPerMeter s) (topLine s) (statsDiv s) (statsVisible s)
    (buttonsShown s) (toggleLabel s) (paletteIdx s) (primeTimers s).

Definition set_showTrails (v : bool) (s : Session) : Session :=
  mkSession (vid s) (ready s) (warmed s) (started s) (trails s) (current s)
    (showAllAtEnd s) v (calibStep s) (calibPts s)
    (pixelsPerMeter s) (topLine s) (statsDiv s) (statsVisible s)
    (buttonsShown s) (toggleLabel s) (paletteIdx s) (primeTimers s).

Definition set_calibStep (v : nat) (s : Session) : Session :=
  mkSession (vid s) (ready s) (warmed s) (started s) (trails s) (current s)
    (showAllAtEnd s) (showTrails s) v (calibPts s)
    (pixelsPerMeter s) (topLine s) (statsDiv s) (statsVisible s)
    (buttonsShown s) (toggleLabel s) (paletteIdx s) (primeTimers s).

Definition set_calibPts (v : CalibPts) (s : Session) : Session :=
  mkSession (vid s) (ready s) (warmed s) (started s) (trails s) (current s)
    (showAllAtEnd s) (showTrails s) (calibStep s) v
    (pixelsPerMeter s) (topLine s) (statsDiv s) (statsVisible s)
    (buttonsShown s) (toggleLabel s) (paletteIdx s) (primeTimers s).

Definition set_pixelsPerMeter (v : option jsnum) (s : Session) : Session :=
  mkSession (vid s) (ready s) (warmed s) (started s) (trails s) (current s)
    (showAllAtEnd s) (showTrails s) (calibStep s) (calibPts s)
    v (topLine s) (statsDiv s) (statsVisible s)
    (buttonsShown s) (toggleLabel s) (paletteIdx s) (primeTimers s).

Definition set_topLine (v : option Line) (s : Session) : Session :=
  mkSession (vid s) (ready s) (warmed s) (started s) (trails s) (current s)
    (showAllAtEnd s) (showTrails s) (calibStep s) (calibPts s)
    (pixelsPerMeter s) v (statsDiv s) (statsVisible s)
    (buttonsShown s) (toggleLabel s) (paletteIdx s) (primeTimers s).

Definition set_statsDiv (v : StatsDiv) (s : Session) : Session :=
  mkSession (vid s) (ready s) (warmed s) (started s) (trails s) (current s)
    (showAllAtEnd s) (showTrails s) (calibStep s) (calibPts s)
    (pixelsPerMeter s) (topLine s) v (statsVisible s)
    (buttonsShown s) (toggleLabel s) (paletteIdx s) (primeTimers s).

Definition set_statsVisible (v : bool) (s : Session) : Session :=
  mkSession (vid s) (ready s) (warmed s) (started s) (trails s) (current s)
    (showAllAtEnd s) (showTrails s) (calibStep s) (calibPts s)
    (pixelsPerMeter s) (topLine s) (statsDiv s) v
    (buttonsShown s) (toggleLabel s) (paletteIdx s) (primeTimers s).

Definition set_buttonsShown (v : bool) (s : Session) : Session :=
  mkSession (vid s) (ready s) (warmed s) (started s) (trails s) (current s)
    (showAllAtEnd s) (showTrails s) (calibStep s) (calibPts s)
    (pixelsPerMeter s) (topLine s) (statsDiv s) (statsVisible s)
    v (toggleLabel s) (paletteIdx s) (primeTimers s).

Definition set_toggleLabel (v : ToggleLabel) (s : Session) : Session :=
  mkSession (vid s) (ready s) (warmed s) (started s) (trails s) (current s)
    (showAllAtEnd s) (showTrails s) (calibStep s) (calibPts s)
    (pixelsPerMeter s) (topLine s) (statsDiv s) (statsVisible s)
    (buttonsShown s) v (paletteIdx s) (primeTimers s).

Definition set_paletteIdx (v : nat) (s : Session) : Session :=
  mkSession (vid s) (ready s) (warmed s) (started s) (trails s) (current s)
    (showAllAtEnd s) (showTrails s) (calibStep s) (calibPts s)
    (pixelsPerMeter s) (topLine s) (statsDiv s) (statsVisible s)
    (buttonsShown s) (toggleLabel s) v (primeTimers s).

Definition set_primeTimers (v : nat) (s : Session) : Session :=
  mkSession (vid s) (ready s) (warmed s) (started s) (trails s) (current s)
    (showAllAtEnd s) (showTrails s) (calibStep s) (calibPts s)
    (pixelsPerMeter s) (topLine s) (statsDiv s) (statsVisible s)
    (buttonsShown s) (toggleLabel s) (paletteIdx s) v.

(** ** The video element *)

Definition vid_play (s : Session) : Session :=
  set_vid (mkVideo false (time (vid s)) (duration (vid s))) s.

Definition vid_pause (s : Session) : Session :=
  set_vid (mkVideo true (time (vid s)) (duration (vid s))) s.

(** [vid.time(v)] *)
Definition vid_seek (v : Qc) (s : Session) : Session :=
  set_vid (mkVideo (paused (vid s)) v (duration (vid s))) s.

Definition Qcmax (p q : Qc) : Qc := if Qcltb p q then q else p.
Definition Qcmin (p q : Qc) : Qc := if Qcltb q p then q else p.

(** The frame step [1 / 30]. *)
Definition frameStep : Qc := qc 1 30.

(** ** Colour palette *)

(** [nextColour()]: the colour at the cursor, and the cursor advanced. *)
Definition nextColour (s : Session) : Colour * Session :=
  (nth (paletteIdx s mod List.length PALETTE) PALETTE [],
   set_paletteIdx (S (paletteIdx s)) s).

(** [current = { points: [], color: nextColour() }] *)
Definition freshCurrent (s : Session) : Session :=
  let (c, s1) := nextColour s in
  set_current (newRep (Some c)) s1.

(** The globals as they are declared. *)
Definition initial (d : Qc) : Session :=
  mkSession (mkVideo true 0 d) false false false [] (newRep None)
    false true 0 (mkCalibPts None None None None) None None
    (mkStatsDiv false None) true false LabelToggle 0 0.

(** The part of [setup()] that touches the globals: the colour of the
    first rep. *)
Definition setup (s : Session) : Session :=
  let (c, s1) := nextColour s in
  set_current
    (mkRep (points (current s1)) (Some c) (peakM (current s1))
       (aboveNetCM (current s1)) (widthM (current s1))
       (direction (current s1))) s1.

(** ** Video priming *)

(** [primeVideo()]: starts playback and schedules the timer that will pause
    the video and set [warmed]; the pending timers are counted in
    [primeTimers]. *)
Definition primeVideo (s : Session) : Session :=
  if warmed s then s
  else
    let s1 := vid_play s in
    set_primeTimers (S (primeTimers s1)) s1.

(** ** Calibration math *)

(** [hLeft], [hRight]: the pixel height of the net at an antenna. *)
Definition antennaHeight (top bottom : Point) : jsnum :=
  abs (sub (Fin (pty top)) (Fin (pty bottom))).

(** [pixelsPerMeter] as [finalizeCalibration] computes it. *)
Definition scaleOf (lb lt rb rt : Point) : jsnum :=
  let hLeft := antennaHeight lt lb in
  let hRight := antennaHeight rt rb in
  let hAvgPx := div (add hLeft hRight) (ofZ 2) in
  div hAvgPx NET_HEIGHT_M.

(** [topLine] as [finalizeCalibration] computes it. *)
Definition tapeOf (lt rt : Point) : Line :=
  let m := div (sub (Fin (pty rt)) (Fin (pty lt)))
               (sub (Fin (ptx rt)) (Fin (ptx lt))) in
  let b := sub (Fin (pty lt)) (mul m (Fin (ptx lt))) in
  mkLine m b.

(** [finalizeCalibration()]; [None] is the TypeError of reading a
    coordinate of a corner that is still [null]. *)
Definition finalizeCalibration (s : Session) : option Session :=
  match LB (calibPts s), LT (calibPts s), RB (calibPts s), RT (calibPts s) with
  | Some lb, Some lt, Some rb, Some rt =>
      let s1 := set_pixelsPerMeter (Some (scaleOf lb lt rb rt)) s in
      Some (set_topLine (Some (tapeOf lt rt)) s1)
  | _, _, _, _ => None
  end.

(** [metersAboveNetAtPoint(x, y)] *)
Definition metersAboveNetAtPoint (s : Session) (x y : Qc) : option jsnum :=
  match pixelsPerMeter s, topLine s with
  | Some ppm, Some tl =>
      if negb (truthy ppm) then None
      else
        let yTop := add (mul (m tl) (Fin x)) (b tl) in
        let dyPx := sub yTop (Fin y) in
        Some (div dyPx ppm)
  | _, _ => None
  end.

(** [metersHorizDistance(p1, p2)] *)
Definition metersHorizDistance (s : Session) (p1 p2 : RepPoint)
  : option jsnum :=
  match pixelsPerMeter s with
  | Some ppm =>
      if negb (truthy ppm) then None
      else
        let dxPx := abs (sub (Fin (x p2)) (Fin (x p1))) in
        Some (div dxPx ppm)
  | None => None
  end.

(** ** Metrics per rep *)

(** The loop over [rep.points] that tracks the greatest value above the
    net, from [-Infinity]. *)
Definition peakAbove (s : Session) (pts : list RepPoint) : jsnum :=
  fold_left
    (fun peakAboveM p =>
       match metersAboveNetAtPoint s (x p) (y p) with
       | Some a => if gt a peakAboveM then a else peakAboveM
       | None => peakAboveM
       end)
    pts NInf.

(** The body of the loop of [computeAllRepMetrics] for one rep. *)
Definition computeRepMetrics (s : Session) (rep : Rep) : Rep :=
  match points rep with
  | [] | [_] => mkRep (points rep) (color rep) None None None None
  | start :: _ :: _ =>
      let peakAboveM := peakAbove s (points rep) in
      let finite := isFinite peakAboveM in
      let pk := if negb finite then None
                else Some (add NET_HEIGHT_M peakAboveM) in
      let cm := if negb finite then None
                else Some (round (mul peakAboveM (ofZ 100))) in
      let end_ := last (points rep) start in
      let wM := metersHorizDistance s start end_ in
      let dir := if Qcltb (x start) (x end_) then ArrowRight
                 else if Qcltb (x end_) (x start) then ArrowLeft
                 else Bullet in
      mkRep (points rep) (color rep) pk cm wM (Some dir)
  end.

(** [computeAllRepMetrics()] *)
Definition computeAllRepMetrics (s : Session) : Session :=
  set_trails (map (computeRepMetrics s) (trails s)) s.

(** ** Stats table *)

(** The accumulators of the loop of [renderStatsTable]. *)
Record Acc : Type := mkAcc {
  accBestIdx : Z;
  accBestVal : jsnum;
  sumPeak : jsnum;
  nPeak : Z;
  sumWidth : jsnum;
  nWidth : Z
}.

Definition acc0 : Acc := mkAcc (-1) NInf (ofZ 0) 0 (ofZ 0) 0.

(** One iteration, for the rep [r] at index [i]. *)
Definition statsStep (i : Z) (r : Rep) (a : Acc) : Acc :=
  let a1 :=
    match peakM r with
    | Some p =>
        let a' :=
          if gt p (accBestVal a)
          then mkAcc i p (sumPeak a) (nPeak a) (sumWidth a) (nWidth a)
          else a in
        mkAcc (accBestIdx a') (accBestVal a') (add (sumPeak a') p)
          (nPeak a' + 1) (sumWidth a') (nWidth a')
    | None => a
    end in
  match widthM r with
  | Some w =>
      mkAcc (accBestIdx a1) (accBestVal a1) (sumPeak a1) (nPeak a1)
        (add (sumWidth a1) w) (nWidth a1 + 1)
  | None => a1
  end.

(** The loop [for (let i = 0; i < trails.length; i++)], entered at index
    [i] with the reps that remain. *)
Fixpoint statsLoop (i : Z) (rs : list Rep) (a : Acc) : Acc :=
  match rs with
  | [] => a
  | r :: rs' => statsLoop (i + 1) rs' (statsStep i r a)
  end.

(** The summary values of [renderStatsTable]. *)
Definition statsSummary (rs : list Rep) : Summary :=
  let a := statsLoop 0 rs acc0 in
  let avgPeak := if (nPeak a =? 0)%Z then None
                 else Some (div (sumPeak a) (ofZ (nPeak a))) in
  let avgWidth := if (nWidth a =? 0)%Z then None
                  else Some (div (sumWidth a) (ofZ (nWidth a))) in
  mkSummary (accBestIdx a) (accBestVal a) avgPeak avgWidth.

(** [renderStatsTable()]; the HTML is kept as the values it prints. *)
Definition renderStatsTable (s : Session) : Session :=
  set_statsVisible true
    (set_statsDiv (mkStatsDiv true (Some (statsSummary (trails s)))) s).

(** ** Dashboard *)

(** [updateDashboard()] *)
Definition updateDashboard (s : Session) : Session :=
  if showAllAtEnd s && (4 <=? calibStep s)%nat
  then
    set_toggleLabel (if showTrails s then LabelHide else LabelShow)
      (set_buttonsShown true s)
  else set_buttonsShown false s.

(** [statsDiv.style('display', 'none')] *)
Definition hideStats (s : Session) : Session :=
  set_statsDiv (mkStatsDiv false (html (statsDiv s))) s.

(** [restartVideoHidden()] *)
Definition restartVideoHidden (s : Session) : Session :=
  let s1 := set_showAllAtEnd false s in
  let s2 := set_showTrails false s1 in
  let s3 := hideStats s2 in
  let s4 := freshCurrent s3 in
  let s5 := vid_play (vid_seek 0 s4) in
  let s6 := set_started true s5 in
  updateDashboard s6.

(** The [onended] handler of the video. *)
Definition videoEnded (s : Session) : Session :=
  let s1 := set_showAllAtEnd true s in
  let s2 := set_showTrails true s1 in
  let s3 := computeAllRepMetrics s2 in
  let s4 := renderStatsTable s3 in
  updateDashboard s4.

(** ** Mouse interaction *)

(** The assignment to the corner that [calibStep] asks for. *)
Definition recordCorner (pt : Point) (s : Session) : Session :=
  let c := calibPts s in
  match calibStep s with
  | 0%nat => set_calibPts (mkCalibPts (Some pt) (LT c) (RB c) (RT c)) s
  | 1%nat => set_calibPts (mkCalibPts (LB c) (Some pt) (RB c) (RT c)) s
  | 2%nat => set_calibPts (mkCalibPts (LB c) (LT c) (Some pt) (RT c)) s
  | 3%nat => set_calibPts (mkCalibPts (LB c) (LT c) (RB c) (Some pt)) s
  | _ => s
  end.

(** [mousePressed()] with the mouse at [(mouseX, mouseY)]; [None] is an
    exception thrown by [finalizeCalibration]. *)
Definition mousePressed (mouseX mouseY : Qc) (s : Session) : option Session :=
  if negb (warmed s) then Some (primeVideo s)
  else if (calibStep s <? 4)%nat then
    let pt := mkPoint mouseX mouseY in
    let s1 := recordCorner pt s in
    let s2 := set_calibStep (S (calibStep s1)) s1 in
    if (calibStep s2 =? 4)%nat then finalizeCalibration s2 else Some s2
  else if negb (started s) then
    Some (set_started true (vid_play s))
  else if showAllAtEnd s then Some s
  else
    let p := mkRepPoint mouseX mouseY (time (vid s)) in
    let c := current s in
    Some (set_current
            (mkRep (points c ++ [p]) (color c) (peakM c) (aboveNetCM c)
               (widthM c) (direction c)) s).

(** ** Keyboard interaction *)

(** [current.points.pop()] *)
Definition popPoint (s : Session) : Session :=
  let c := current s in
  set_current
    (mkRep (removelast (points c)) (color c) (peakM c) (aboveNetCM c)
       (widthM c) (direction c)) s.

(** The branch of the key N. *)
Definition keyN (s : Session) : Session :=
  let s1 := if (List.length (points (current s)) =? 0)%nat then s
            else set_trails (trails s ++ [current s]) s in
  freshCurrent s1.

(** The branch of the key Z. *)
Definition keyZ (s : Session) : Session :=
  if (List.length (points (current s)) =? 0)%nat then s else popPoint s.

(** The branch of the key R: the full reset. *)
Definition keyR (s : Session) : Session :=
  let s1 := set_trails [] s in
  let s2 := freshCurrent s1 in
  let s3 := set_ready false (set_started false (set_showAllAtEnd false s2)) in
  let s4 := set_calibPts (mkCalibPts None None None None)
              (set_calibStep 0 s3) in
  let s5 := set_warmed false (set_topLine None (set_pixelsPerMeter None s4)) in
  let s6 := set_statsDiv (mkStatsDiv false None) s5 in
  let s7 := set_ready true (vid_pause (vid_seek 0 s6)) in
  updateDashboard s7.

(** The branch of Enter. *)
Definition keyEnter (s : Session) : Session :=
  let s1 := set_showTrails false (set_showAllAtEnd false s) in
  let s2 := hideStats s1 in
  let s3 := freshCurrent s2 in
  let s4 := vid_play (vid_seek 0 s3) in
  updateDashboard s4.

(** [keyPressed()] with the globals [key] and [keyCode] of p5.js. *)
Definition keyPressed (key : string) (keyCode : Z) (s : Session) : Session :=
  if (calibStep s <? 4)%nat then s
  else if (key =? " ")%string then
    (if paused (vid s) then vid_play s else vid_pause s)
  else if (key =? "N")%string || (key =? "n")%string then keyN s
  else if (key =? "Z")%string || (key =? "z")%string then keyZ s
  else if (key =? ",")%string then
    (if negb (showAllAtEnd s)
     then let s1 := vid_pause s in
          vid_seek (Qcmax 0 (time (vid s1) - frameStep)) s1
     else s)
  else if (key =? ".")%string then
    (if negb (showAllAtEnd s)
     then let s1 := vid_pause s in
          vid_seek (Qcmin (duration (vid s1)) (time (vid s1) + frameStep)) s1
     else s)
  else if (keyCode =? ENTER)%Z then keyEnter s
  else if (key =? "S")%string || (key =? "s")%string then restartVideoHidden s
  else if (key =? "R")%string || (key =? "r")%string then keyR s
  else s.

(** [clicks]: a sequence of mouse clicks, stopped by the first exception. *)
Fixpoint clicks (cs : list Point) (s : Session) : option Session :=
  match cs with
  | [] => Some s
  | c :: cs' =>
      match mousePressed (ptx c) (pty c) s with
      | Some s' => clicks cs' s'
      | None => None
      end
  end.

(** The session that four calibration clicks lead to (see [four_clicks]). *)
Definition calibrated (lb lt rb rt : Point) (s : Session) : Session :=
  set_topLine (Some (tapeOf lt rt))
    (set_pixelsPerMeter (Some (scaleOf lb lt rb rt))
       (set_calibStep 4
          (set_calibPts (mkCalibPts (Some lb) (Some lt) (Some rb) (Some rt))
             s))).

(** A session after [setup()], primed, with a video of one minute. *)
Definition demoStart : Session := set_warmed true (setup (initial (qc 60 1))).

(** The corners of the end-to-end scenario. *)
Definition demoLB : Point := mkPoint (qc 100 1) (qc 400 1).
Definition demoLT : Point := mkPoint (qc 100 1) (qc 100 1).
Definition demoRB : Point := mkPoint (qc 700 1) (qc 420 1).
Definition demoRT : Point := mkPoint (qc 700 1) (qc 120 1).

(** The same, in click order. *)
Definition demoCorners : list Point := [demoLB; demoLT; demoRB; demoRT].

(** ** The summary in the words of the specification *)

(** The values of a metric over the reps where it is defined, in rep
    order. *)
Definition definedValues (f : Rep -> option jsnum) (rs : list Rep)
  : list jsnum :=
  flat_map (fun r => match f r with Some v => [v] | None => [] end) rs.

(** The sum of a list of numbers. *)
Definition total (vs : list jsnum) : jsnum := fold_right add (ofZ 0) vs.

(** The arithmetic mean, [null] for no value at all. *)
Definition mean (vs : list jsnum) : option jsnum :=
  match vs with
  | [] => None
  | _ :: _ => Some (div (total vs) (ofZ (Z.of_nat (List.length vs))))
  end.

(** The rep at index [i] has the peak [v]; no defined peak is greater than
    [v]; every defined peak before index [i] is strictly less than [v]. *)
Definition firstStrictMax (rs : list Rep) (i : nat) (v : jsnum) : Prop :=
  (exists r, nth_error rs i = Some r /\ peakM r = Some v) /\
  (forall j r w,
     nth_error rs j = Some r -> peakM r = Some w -> gt w v = false) /\
  (forall j r w,
     (j < i)%nat -> nth_error rs j = Some r -> peakM r = Some w ->
     gt v w = true).

(** All defined peaks of [rs] are finite numbers. *)
Definition finitePeaks (rs : list Rep) : Prop :=
  forall r w, In r rs -> peakM r = Some w -> isFinite w = true.

(** The height above the net in the geometry of the scenario. *)
Definition scenarioHeight (x0 y0 : Qc) : Qc :=
  (qc 1 30 * x0 + qc 290 3 - y0) / (qc 300 1 / qc 243 100).

(** ** Draw loop, timer and buttons *)

(** What [draw()] changes of the globals: during calibration it primes
    the video, afterwards it refreshes the dashboard. *)
Definition draw (s : Session) : Session :=
  if (calibStep s <? 4)%nat
  then (if negb (warmed s) then primeVideo s else s)
  else updateDashboard s.

(** The callback that [primeVideo] hands to [setTimeout], run for one of
    the pending timers; [redraw()] runs [draw()] once. *)
Definition primeTimeout (s : Session) : Session :=
  match primeTimers s with
  | O => s
  | S n =>
      let s1 := vid_pause (set_primeTimers n s) in
      let s2 := set_warmed true s1 in
      draw s2
  end.

(** [onloadeddata] and [oncanplay] *)
Definition videoLoaded (s : Session) : Session := set_ready true s.

(** The handler of the Replay button. *)
Definition btnReplayPressed (s : Session) : Session :=
  let s1 := set_showAllAtEnd false s in
  let s2 := set_showTrails false s1 in
  let s3 := hideStats s2 in
  let s4 := freshCurrent s3 in
  let s5 := vid_play (vid_seek 0 s4) in
  updateDashboard s5.

(** The handler of the Toggle button. *)
Definition btnTogglePressed (s : Session) : Session :=
  updateDashboard (set_showTrails (negb (showTrails s)) s).

(** The handler of the Snapshot button; saving the canvas changes no
    global. *)
Definition btnSnapshotPressed (s : Session) : Session :=
  let prev := showTrails s in
  let s1 := set_showTrails true s in
  let s2 := draw s1 in
  set_showTrails prev s2.

(** The handler of the Stats button. *)
Definition btnStatsPressed (s : Session) : Session :=
  let s1 := set_statsVisible (negb (statsVisible s)) s in
  set_statsDiv (mkStatsDiv (statsVisible s1) (html (statsDiv s1))) s1.

(** ** Events *)

(** The handlers that the browser and p5.js call; [VideoProgress] is the
    video element changing its own time, pause flag or duration between
    two handlers. *)
Inductive Event : Type :=
| MouseClick (mouseX mouseY : Qc)
| KeyPress (key : string) (keyCode : Z)
| DrawFrame
| PrimeTimer
| VideoLoaded
| VideoEnded
| VideoProgress (v : Video)
| ButtonReplay
| ButtonToggle
| ButtonSnapshot
| ButtonRestart
| ButtonStats.

(** One event; [None] is an exception thrown by the handler. *)
Definition handle (e : Event) (s : Session) : option Session :=
  match e with
  | MouseClick mouseX mouseY => mousePressed mouseX mouseY s
  | KeyPress key keyCode => Some (keyPressed key keyCode s)
  | DrawFrame => Some (draw s)
  | PrimeTimer => Some (primeTimeout s)
  | VideoLoaded => Some (videoLoaded s)
  | VideoEnded => Some (videoEnded s)
  | VideoProgress v => Some (set_vid v s)
  | ButtonReplay => Some (btnReplayPressed s)
  | ButtonToggle => Some (btnTogglePressed s)
  | ButtonSnapshot => Some (btnSnapshotPressed s)
  | ButtonRestart => Some (restartVideoHidden s)
  | ButtonStats => Some (btnStatsPressed s)
  end.

(** A sequence of events, stopped by the first exception. *)
Fixpoint run (es : list Event) (s : Session) : option Session :=
  match es with
  | [] => Some s
  | e :: es' =>
      match handle e s with
      | Some s' => run es' s'
      | None => None
      end
  end.

(** ** Invariants of a session *)

(** The corners that are set are exactly the first [calibStep] ones. *)
Definition cornersMatchStep (s : Session) : bool :=
  match calibStep s, calibPts s with
  | 0%nat, mkCalibPts None None None None => true
  | 1%nat, mkCalibPts (Some _) None None None => true
  | 2%nat, mkCalibPts (Some _) (Some _) None None => true
  | 3%nat, mkCalibPts (Some _) (Some _) (Some _) None => true
  | 4%nat, mkCalibPts (Some _) (Some _) (Some _) (Some _) => true
  | _, _ => false
  end.

(** The scale and the tape line are both [null] until the four corners
    are set, and from then on they are the values derived from them. *)
Definition geometryMatchesCorners (s : Session) : Prop :=
  match calibPts s with
  | mkCalibPts (Some lb) (Some lt) (Some rb) (Some rt) =>
      pixelsPerMeter s = Some (scaleOf lb lt rb rt) /\
      topLine s = Some (tapeOf lt rt)
  | _ => pixelsPerMeter s = None /\ topLine s = None
  end.

(** A rep has a colour of the palette. *)
Definition coloured (r : Rep) : Prop :=
  exists c, color r = Some c /\ In c PALETTE.

(** Every completed rep has a point and a colour, the active rep has a
    colour, and nothing is recorded while calibration is under way. *)
Definition recorderOK (s : Session) : Prop :=
  (forall r, In r (trails s) -> points r <> [] /\ coloured r) /\
  coloured (current s) /\
  ((calibStep s < 4)%nat -> trails s = [] /\ points (current s) = []).

(** The end-screen buttons are visible only on the end screen of a
    calibrated session. *)
Definition dashboardOK (s : Session) : Prop :=
  buttonsShown s = true -> showAllAtEnd s = true /\ calibStep s = 4%nat.

Definition Inv (s : Session) : Prop :=
  cornersMatchStep s = true /\ geometryMatchesCorners s /\
  recorderOK s /\ dashboardOK s.

(** The invariants that do not read the dashboard. *)
Definition Inv3 (s : Session) : Prop :=
  cornersMatchStep s = true /\ geometryMatchesCorners s /\ recorderOK s.

(** Two sessions with the same calibration state. *)
Definition sameCalibration (s s' : Session) : Prop :=
  calibStep s' = calibStep s /\ calibPts s' = calibPts s /\
  pixelsPerMeter s' = pixelsPerMeter s /\ topLine s' = topLine s.

(** The key of the full reset. *)
Definition isReset (e : Event) : bool :=
  match e with
  | KeyPress key _ => (key =? "R")%string || (key =? "r")%string
  | _ => false
  end.

(** What is recorded of a rep: its points and its colour. *)
Definition repData (r : Rep) : list RepPoint * option Colour :=
  (points r, color r).

(** No event of the list is the reset key. *)
Definition noReset (es : list Event) : bool :=
  forallb (fun e => negb (isReset e)) es.

(** The session of the scenario after its four calibration clicks. *)
Definition demoSession : Session :=
  calibrated demoLB demoLT demoRB demoRT demoStart.

(** A short recording: a click that starts playback, two points, the end
    of the rep, one more point, an undo, and the end of the video. *)
Definition demoEvents : list Event :=
  [ MouseClick (qc 10 1) (qc 10 1);
    MouseClick (qc 400 1) (qc 50 1);
    MouseClick (qc 500 1) (qc 300 1);
    KeyPress "N" 78;
    MouseClick (qc 300 1) (qc 200 1);
    KeyPress "z" 90;
    VideoEnded ].

(** ** Heights in a finite geometry *)

(** The height above the net of the pixel [(x0, y0)] for the scale [p]
    and the tape line [y = slope * x + icpt]. *)
Definition heightOf (p slope icpt x0 y0 : Qc) : Qc :=
  (slope * x0 + icpt - y0) / p.

(** The same rep with its points in the opposite order. *)
Definition reversed (r : Rep) : Rep :=
  mkRep (rev (points r)) (color r) (peakM r) (aboveNetCM r) (widthM r)
    (direction r).

(** The opposite direction. *)
Definition flipDirection (d : Direction) : Direction :=
  match d with
  | ArrowRight => ArrowLeft
  | ArrowLeft => ArrowRight
  | Bullet => Bullet
  end.

(** The session of the scenario once playback has started. *)
Definition demoRecording : Session := set_started true (vid_play demoSession).

(** The same with two points in the active rep. *)
Definition demoActive : Session :=
  set_current
    (mkRep [ mkRepPoint (qc 400 1) (qc 50 1) (qc 2 1);
             mkRepPoint (qc 500 1) (qc 300 1) (qc 3 1) ]
       (Some [255; 80; 80]%Z) None None None None)
    demoRecording.

(** A rep of three points that ends to the left of its start. *)
Definition demoRep : Rep :=
  mkRep [ mkRepPoint (qc 400 1) (qc 50 1) (qc 2 1);
          mkRepPoint (qc 500 1) (qc 300 1) (qc 3 1);
          mkRepPoint (qc 300 1) (qc 200 1) (qc 4 1) ]
    (Some [255; 80; 80]%Z) None None None None.

(** ** Arithmetic facts *)

(** Linear arithmetic on [Qc], through [Q]. *)
Ltac qc_unfold :=
  unfold Qclt, Qcle, Qcminus, Qcplus, Qcopp, Qcmult, Q2Qc in *;
  cbn [this] in *;
  rewrite ?Qred_correct in *.

Ltac qc_lra := qc_unfold; lra.

Section Arith.

Lemma Qcltb_lt (a b : Qc) : Qcltb a b = true <-> a < b.
Proof.
  unfold Qcltb. rewrite Qclt_alt.
  destruct (a ?= b); split; congruence.
Qed.

Lemma Qceqb_eq (a b : Qc) : Qceqb a b = true <-> a = b.
Proof.
  unfold Qceqb. rewrite Qceq_alt.
  destruct (a ?= b); split; congruence.
Qed.

Lemma Qceqb_refl (a : Qc) : Qceqb a a = true.
Proof. now apply Qceqb_eq. Qed.

Lemma Qceqb_neq (a b : Qc) : Qceqb a b = false <-> a <> b.
Proof.
  rewrite <- Qceqb_eq. destruct (Qceqb a b); split; congruence.
Qed.

Lemma Qcltb_irrefl (a : Qc) : Qcltb a a = false.
Proof.
  destruct (Qcltb a a) eqn:E; [|reflexivity].
  apply Qcltb_lt in E. now apply Qclt_not_eq in E.
Qed.

Lemma Qcltb_ge (a b : Qc) : Qcltb a b = false <-> b <= a.
Proof.
  split; intros H.
  - apply Qcnot_lt_le. intros L. apply Qcltb_lt in L. congruence.
  - destruct (Qcltb a b) eqn:E; [|reflexivity].
    apply Qcltb_lt in E. now apply Qcle_not_lt in H.
Qed.

End Arith.

(** ** Keyboard gate during calibration *)

Section Keyboard.

Variables (key : string) (keyCode : Z).

(** The first line of [keyPressed]. *)
Lemma keyPressed_gate (s : Session) :
  (calibStep s <? 4)%nat = true -> keyPressed key keyCode s = s.
Proof. intros H. unfold keyPressed. now rewrite H. Qed.

(** C9: while [calibStep < 4] every key (undo Z, end rep N, reset R, space,
    the frame steps, Enter, S and any other) leaves the whole session as it
    is: [keyPressed] returns before it looks at the key. *)
Theorem keyPressed_during_calibration (s : Session) :
  (calibStep s < 4)%nat -> keyPressed key keyCode s = s.
Proof.
  intros H. apply keyPressed_gate. now apply Nat.ltb_lt.
Qed.

End Keyboard.

Lemma keyPressed_during_calibration_witness :
  (calibStep demoStart < 4)%nat /\
  keyPressed "R" 82 demoStart = demoStart.
Proof.
  split.
  - cbn. lia.
  - apply (keyPressed_during_calibration "R" 82 demoStart). cbn. lia.
Defined.

(** ** The key N on an empty rep *)

Section EndRep.

Lemma freshCurrent_trails (s : Session) : trails (freshCurrent s) = trails s.
Proof. reflexivity. Qed.

Lemma freshCurrent_points (s : Session) : points (current (freshCurrent s)) = [].
Proof. reflexivity. Qed.

Lemma freshCurrent_paletteIdx (s : Session) :
  paletteIdx (freshCurrent s) = S (paletteIdx s).
Proof. reflexivity. Qed.

Lemma keyPressed_N (key : string) (keyCode : Z) (s : Session) :
  key = "N"%string \/ key = "n"%string ->
  (4 <= calibStep s)%nat -> keyPressed key keyCode s = keyN s.
Proof.
  intros Hk H. unfold keyPressed.
  replace (calibStep s <? 4)%nat with false
    by (symmetry; apply Nat.ltb_ge; exact H).
  destruct Hk as [-> | ->]; reflexivity.
Qed.

(** C3, as the code has it: with no point in the active rep the key N
    appends nothing to [trails] and the active rep stays without points;
    during calibration the session is unchanged, and after it the active
    rep is replaced by a fresh one with the next palette colour, the colour
    cursor moves on by one, and nothing else changes. *)
Theorem endRep_on_empty_rep (key : string) (keyCode : Z) (s : Session) :
  key = "N"%string \/ key = "n"%string ->
  points (current s) = [] ->
  let s' := keyPressed key keyCode s in
  trails s' = trails s /\
  points (current s') = [] /\
  ((calibStep s < 4)%nat -> s' = s) /\
  ((4 <= calibStep s)%nat ->
     s' = set_current
            (newRep (Some (nth (paletteIdx s mod 7) PALETTE [])))
            (set_paletteIdx (S (paletteIdx s)) s)).
Proof.
  intros Hk Hpts s'.
  destruct (Nat.lt_ge_cases (calibStep s) 4) as [Hc | Hc].
  - assert (E : s' = s) by (apply keyPressed_gate; now apply Nat.ltb_lt).
    rewrite E. repeat split; auto. intros Hc'. lia.
  - assert (E : s' = freshCurrent s).
    { unfold s'. rewrite (keyPressed_N key keyCode s Hk Hc).
      unfold keyN. now rewrite Hpts. }
    rewrite E. repeat split.
    + intros Hc'. lia.
Qed.

End EndRep.

Lemma endRep_on_empty_rep_witness :
  exists s,
    clicks demoCorners demoStart = Some s /\
    ("N" = "N" \/ "N" = "n")%string /\
    points (current s) = [] /\
    trails (keyPressed "N" 78 s) = trails s /\
    paletteIdx (keyPressed "N" 78 s) = 2%nat.
Proof.
  eexists. split; [vm_compute; reflexivity|].
  split; [left; reflexivity|].
  split; [reflexivity|].
  split.
  - refine (proj1 (endRep_on_empty_rep "N" 78 _ _ _)).
    + left; reflexivity.
    + vm_compute. reflexivity.
  - vm_compute. reflexivity.
Defined.

(** C3, as the spec words it, fails: in the session reached by the four
    calibration clicks of the scenario the active rep has no point, and the
    key N moves the colour cursor from 1 to 2 and recolours the active
    rep. *)
Lemma endRep_on_empty_rep_not_noop :
  exists s,
    clicks demoCorners demoStart = Some s /\
    points (current s) = [] /\
    paletteIdx s = 1%nat /\
    paletteIdx (keyPressed "N" 78 s) = 2%nat /\
    color (current s) = Some [255; 80; 80]%Z /\
    color (current (keyPressed "N" 78 s)) = Some [255; 160; 0]%Z /\
    keyPressed "N" 78 s <> s.
Proof.
  eexists. split; [vm_compute; reflexivity|].
  repeat split; try (vm_compute; reflexivity).
  intros E. apply (f_equal paletteIdx) in E. vm_compute in E. discriminate E.
Qed.

(** ** Arithmetic of finite numbers *)

Section FiniteArith.

Lemma sub_Fin (p q : Qc) : sub (Fin p) (Fin q) = Fin (p - q).
Proof. reflexivity. Qed.

Lemma div_Fin (p q : Qc) : q <> 0 -> div (Fin p) (Fin q) = Fin (p / q).
Proof.
  intros H. cbn. apply Qceqb_neq in H. now rewrite H.
Qed.

Lemma qc_eq (p q : Qc) : (this p == this q)%Q -> p = q.
Proof. apply Qc_is_canon. Qed.

Lemma two_neq_0 : qc 2 1 <> 0.
Proof. apply Qceqb_neq. reflexivity. Qed.

Lemma net_height_neq_0 : qc 243 100 <> 0.
Proof. apply Qceqb_neq. reflexivity. Qed.

Lemma Qcabs_nonneg (q : Qc) : 0 <= Qcabs q.
Proof.
  unfold Qcabs. destruct (Qcltb q 0) eqn:E.
  - apply Qcltb_lt in E. qc_lra.
  - now apply Qcltb_ge in E.
Qed.

Lemma Qcabs_0 : Qcabs 0 = 0.
Proof. reflexivity. Qed.

(** The scale is always a finite number: the two heights are finite and
    the divisors [2] and [NET_HEIGHT_M] are not zero. *)
Lemma scaleOf_Fin (lb lt rb rt : Point) :
  scaleOf lb lt rb rt =
  Fin ((Qcabs (pty lt - pty lb) + Qcabs (pty rt - pty rb)) / qc 2 1
       / qc 243 100).
Proof.
  unfold scaleOf, antennaHeight, NET_HEIGHT_M, ofZ.
  rewrite !sub_Fin. cbn [abs add].
  rewrite div_Fin by apply two_neq_0.
  rewrite div_Fin by apply net_height_neq_0.
  reflexivity.
Qed.

End FiniteArith.

(** ** Reps with fewer than two points *)

Section FewPoints.

Variable s : Session.

(** C4: a rep with no point or one point gets [null] for the peak height,
    the centimetres above the net, the width and the direction, whatever
    the calibration is. *)
Theorem computeRepMetrics_few_points (rep : Rep) :
  (List.length (points rep) < 2)%nat ->
  let r := computeRepMetrics s rep in
  peakM r = None /\ aboveNetCM r = None /\ widthM r = None /\
  direction r = None.
Proof.
  intros H. unfold computeRepMetrics.
  destruct (points rep) as [|p0 [|p1 ps]]; cbn in *; try lia; auto.
Qed.

Lemma computeRepMetrics_points (rep : Rep) :
  points (computeRepMetrics s rep) = points rep.
Proof.
  unfold computeRepMetrics.
  destruct (points rep) as [|p0 [|p1 ps]] eqn:E; cbn; congruence.
Qed.

End FewPoints.

Lemma computeRepMetrics_few_points_witness :
  let rep := mkRep [mkRepPoint (qc 400 1) (qc 50 1) 0] None
               (Some PInf) (Some PInf) (Some PInf) (Some Bullet) in
  (List.length (points rep) < 2)%nat /\
  peakM (computeRepMetrics demoStart rep) = None.
Proof.
  intros rep. split.
  - cbn. lia.
  - refine (proj1 (computeRepMetrics_few_points demoStart rep _)).
    cbn. lia.
Defined.

(** ** The four calibration clicks *)

Section Calibration.

Variables lb lt rb rt : Point.

(** From a primed session that awaits the first corner, four clicks store
    the corners in the order LB, LT, RB, RT, bring [calibStep] to 4 and
    set the scale and the tape line; no exception is thrown. *)
Lemma four_clicks (s : Session) :
  warmed s = true -> calibStep s = 0%nat ->
  clicks [lb; lt; rb; rt] s = Some (calibrated lb lt rb rt s).
Proof.
  intros Hw Hc. destruct s; cbn in Hw, Hc; subst.
  destruct lb, lt, rb, rt. reflexivity.
Qed.

Lemma calibrated_pixelsPerMeter (s : Session) :
  pixelsPerMeter (calibrated lb lt rb rt s) = Some (scaleOf lb lt rb rt).
Proof. reflexivity. Qed.

Lemma calibrated_topLine (s : Session) :
  topLine (calibrated lb lt rb rt s) = Some (tapeOf lt rt).
Proof. reflexivity. Qed.

Lemma calibrated_calibStep (s : Session) :
  calibStep (calibrated lb lt rb rt s) = 4%nat.
Proof. reflexivity. Qed.

(** The scale is zero when both antenna heights are zero. *)
Lemma scaleOf_zero :
  pty lt = pty lb -> pty rt = pty rb -> scaleOf lb lt rb rt = Fin 0.
Proof.
  intros Hl Hr. rewrite scaleOf_Fin, Hl, Hr. f_equal.
  replace (pty lb - pty lb) with 0 by ring.
  replace (pty rb - pty rb) with 0 by ring.
  rewrite Qcabs_0. apply qc_eq. reflexivity.
Qed.

End Calibration.

(** ** A zero scale *)

Section ZeroScale.

Variable s : Session.
Hypothesis Hzero : pixelsPerMeter s = Some (Fin 0).

Lemma metersAboveNetAtPoint_zero_scale (x0 y0 : Qc) :
  metersAboveNetAtPoint s x0 y0 = None.
Proof.
  unfold metersAboveNetAtPoint. rewrite Hzero.
  destruct (topLine s); reflexivity.
Qed.

Lemma metersHorizDistance_zero_scale (p1 p2 : RepPoint) :
  metersHorizDistance s p1 p2 = None.
Proof. unfold metersHorizDistance. now rewrite Hzero. Qed.

Lemma peakAbove_zero_scale (pts : list RepPoint) : peakAbove s pts = NInf.
Proof.
  unfold peakAbove. generalize NInf as acc.
  induction pts as [|p ps IH]; intros acc; cbn [fold_left].
  - reflexivity.
  - now rewrite metersAboveNetAtPoint_zero_scale, IH.
Qed.

Lemma computeRepMetrics_zero_scale (rep : Rep) :
  let r := computeRepMetrics s rep in
  peakM r = None /\ aboveNetCM r = None /\ widthM r = None.
Proof.
  unfold computeRepMetrics.
  destruct (points rep) as [|p0 [|p1 ps]]; cbn -[peakAbove last]; auto.
  rewrite peakAbove_zero_scale, metersHorizDistance_zero_scale. cbn. auto.
Qed.

End ZeroScale.

(** C10: when each top corner is clicked at the pixel height of its bottom
    corner, calibration completes with a scale of 0; in every session with
    that scale [metersAboveNetAtPoint] and [metersHorizDistance] return
    [null] without dividing, and every rep gets [null] for its peak height,
    its centimetres above the net and its width. *)
Theorem zero_scale_yields_null (s0 : Session) (lb lt rb rt : Point) :
  warmed s0 = true -> calibStep s0 = 0%nat ->
  pty lt = pty lb -> pty rt = pty rb ->
  exists s1,
    clicks [lb; lt; rb; rt] s0 = Some s1 /\
    calibStep s1 = 4%nat /\
    pixelsPerMeter s1 = Some (Fin 0) /\
    forall s2, pixelsPerMeter s2 = pixelsPerMeter s1 ->
      (forall x0 y0, metersAboveNetAtPoint s2 x0 y0 = None) /\
      (forall p1 p2, metersHorizDistance s2 p1 p2 = None) /\
      (forall r, In r (trails (computeAllRepMetrics s2)) ->
         peakM r = None /\ aboveNetCM r = None /\ widthM r = None).
Proof.
  intros Hw Hc Hl Hr.
  exists (calibrated lb lt rb rt s0).
  split; [now apply four_clicks|].
  split; [reflexivity|].
  assert (Hz : pixelsPerMeter (calibrated lb lt rb rt s0) = Some (Fin 0)).
  { rewrite calibrated_pixelsPerMeter. f_equal. now apply scaleOf_zero. }
  split; [exact Hz|].
  intros s2 E. rewrite Hz in E.
  split; [|split].
  - intros. now apply metersAboveNetAtPoint_zero_scale.
  - intros. now apply metersHorizDistance_zero_scale.
  - intros r Hin. cbn in Hin. apply in_map_iff in Hin.
    destruct Hin as [r0 [<- _]].
    now apply computeRepMetrics_zero_scale.
Qed.

(** ** Order facts about division *)

Section DivOrder.

Lemma Qcinv_pos (p : Qc) : 0 < p -> 0 < / p.
Proof.
  unfold Qclt. change (this 0) with 0%Q. intros H.
  unfold Qcinv, Q2Qc. cbn [this].
  rewrite Qred_correct. now apply Qinv_lt_0_compat.
Qed.

Lemma Qcdiv_lt_compat (a c p : Qc) : 0 < p -> a < c -> a / p < c / p.
Proof.
  intros Hp H. unfold Qcdiv.
  apply Qcmult_lt_compat_r; [now apply Qcinv_pos | exact H].
Qed.

Lemma Qcdiv_nonneg (a p : Qc) : 0 <= a -> 0 < p -> 0 <= a / p.
Proof.
  intros Ha Hp. unfold Qcdiv.
  rewrite <- (Qcmult_0_l (/ p)).
  apply Qcmult_le_compat_r; [exact Ha|].
  apply Qclt_le_weak. now apply Qcinv_pos.
Qed.

Lemma Qcdiv_0_l (p : Qc) : 0 / p = 0.
Proof. unfold Qcdiv. apply Qcmult_0_l. Qed.

Lemma two_pos : 0 < qc 2 1.
Proof. reflexivity. Qed.

Lemma net_height_pos : 0 < qc 243 100.
Proof. reflexivity. Qed.

(** The scale that calibration computes is never negative. *)
Lemma scaleOf_nonneg (lb lt rb rt : Point) :
  exists p, scaleOf lb lt rb rt = Fin p /\ 0 <= p.
Proof.
  eexists. split; [apply scaleOf_Fin|].
  apply Qcdiv_nonneg; [|apply net_height_pos].
  apply Qcdiv_nonneg; [|apply two_pos].
  pose proof (Qcabs_nonneg (pty lt - pty lb)).
  pose proof (Qcabs_nonneg (pty rt - pty rb)).
  qc_lra.
Qed.

(** The tape line is finite when the two top corners differ in [x]. *)
Lemma tapeOf_Fin (lt rt : Point) :
  ptx lt <> ptx rt ->
  tapeOf lt rt =
  let slope := (pty rt - pty lt) / (ptx rt - ptx lt) in
  mkLine (Fin slope) (Fin (pty lt - slope * ptx lt)).
Proof.
  intros H. unfold tapeOf. rewrite !sub_Fin.
  rewrite div_Fin; [reflexivity|].
  intros E. apply H.
  transitivity (ptx rt - (ptx rt - ptx lt)); [ring|].
  rewrite E. ring.
Qed.

End DivOrder.

(** ** The fourth click with both top corners at the same x *)

Section Degenerate.

Variables (s : Session) (lb lt rb : Point) (mouseY : Qc).

Hypothesis Hwarm : warmed s = true.
Hypothesis Hstep : calibStep s = 3%nat.
Hypothesis HLB : LB (calibPts s) = Some lb.
Hypothesis HLT : LT (calibPts s) = Some lt.
Hypothesis HRB : RB (calibPts s) = Some rb.

(** The fourth click always completes calibration, wherever it lands. *)
Lemma fourth_click (mouseX : Qc) :
  mousePressed mouseX mouseY s =
  Some (calibrated lb lt rb (mkPoint mouseX mouseY) s).
Proof.
  destruct s as [? ? ? ? ? ? ? ? ? [c1 c2 c3 c4] ? ? ? ? ? ? ? ?].
  cbn in Hwarm, Hstep, HLB, HLT, HRB. subst. reflexivity.
Qed.

(** With the top corners at the same [x] the slope is a quotient by zero:
    it is not a finite number, and neither is the intercept. *)
Lemma tapeOf_same_x (rt : Point) :
  ptx rt = ptx lt ->
  isFinite (m (tapeOf lt rt)) = false /\ isFinite (b (tapeOf lt rt)) = false.
Proof.
  intros E. unfold tapeOf. rewrite !sub_Fin, E.
  replace (ptx lt - ptx lt) with 0 by ring.
  cbn [m b div]. rewrite Qceqb_refl.
  destruct (Qceqb (pty rt - pty lt) 0); [cbn; auto|].
  destruct (Qcltb 0 (pty rt - pty lt)); cbn [inf_of_sign mul];
    destruct (Qceqb (ptx lt) 0); cbn; auto;
    destruct (Qcltb 0 (ptx lt)), (Qcltb (ptx lt) 0); cbn; auto.
Qed.

(** C2, as the code has it: a fourth click at the [x] of the left top
    corner is accepted like any other fourth click.  No exception is
    thrown, the corner is stored, [calibStep] becomes 4 and the scale and
    the tape line are set. *)
Theorem degenerate_fourth_click_accepted :
  exists s',
    mousePressed (ptx lt) mouseY s = Some s' /\
    calibStep s' = 4%nat /\
    calibPts s' =
      mkCalibPts (Some lb) (Some lt) (Some rb)
        (Some (mkPoint (ptx lt) mouseY)) /\
    pixelsPerMeter s' <> None /\
    topLine s' <> None.
Proof.
  eexists. split; [apply fourth_click|].
  repeat split; discriminate.
Qed.

End Degenerate.

Lemma degenerate_fourth_click_accepted_witness :
  let lb := mkPoint (qc 100 1) (qc 400 1) in
  let lt := mkPoint (qc 100 1) (qc 100 1) in
  let rb := mkPoint (qc 100 1) (qc 420 1) in
  let s3 := set_calibStep 3
              (set_calibPts (mkCalibPts (Some lb) (Some lt) (Some rb) None)
                 demoStart) in
  warmed s3 = true /\ calibStep s3 = 3%nat /\
  LB (calibPts s3) = Some lb /\ LT (calibPts s3) = Some lt /\
  RB (calibPts s3) = Some rb /\
  exists s',
    mousePressed (ptx lt) (qc 120 1) s3 = Some s' /\
    calibStep s' = 4%nat /\
    calibPts s' =
      mkCalibPts (Some lb) (Some lt) (Some rb)
        (Some (mkPoint (ptx lt) (qc 120 1))) /\
    pixelsPerMeter s' <> None /\
    topLine s' <> None.
Proof.
  intros lb lt rb s3.
  repeat (split; [reflexivity|]).
  apply (degenerate_fourth_click_accepted s3 lb lt rb (qc 120 1));
    reflexivity.
Defined.

(** C2, as the spec words it, fails: with both top corners at x = 100 the
    four clicks go through without an exception, calibration is complete
    and the tape line has slope [Infinity] and intercept [-Infinity]. *)
Lemma degenerate_calibration_not_rejected :
  exists s,
    clicks [ mkPoint (qc 100 1) (qc 400 1); mkPoint (qc 100 1) (qc 100 1);
             mkPoint (qc 100 1) (qc 420 1); mkPoint (qc 100 1) (qc 120 1) ]
      demoStart = Some s /\
    calibStep s = 4%nat /\
    topLine s = Some (mkLine PInf NInf).
Proof.
  eexists. split; [vm_compute; reflexivity|].
  split; vm_compute; reflexivity.
Qed.

(** ** The tape line as the zero of the height *)

Section TapeLine.

Variable s : Session.
Variables (ppm : jsnum) (tl : Line).

Hypothesis Hppm : pixelsPerMeter s = Some ppm.
Hypothesis Htl : topLine s = Some tl.

Lemma div_zero_truthy : truthy ppm = true -> div (Fin 0) ppm = Fin 0.
Proof.
  destruct ppm as [p| | |]; cbn; try discriminate; auto.
  intros H. apply negb_true_iff in H. rewrite H.
  now rewrite Qcdiv_0_l.
Qed.

(** C7, as the code has it: when the scale is truthy (not [null], not 0,
    not [NaN]), a point [(x0, y0)] on the tape line, [y0 = m * x0 + b], is
    0 metres above the net. *)
Theorem on_tape_line_zero (x0 y0 : Qc) :
  truthy ppm = true ->
  add (mul (m tl) (Fin x0)) (b tl) = Fin y0 ->
  metersAboveNetAtPoint s x0 y0 = Some (Fin 0).
Proof.
  intros Ht Hy. unfold metersAboveNetAtPoint.
  rewrite Hppm, Htl, Ht. cbn [negb]. rewrite Hy, sub_Fin.
  replace (y0 - y0) with 0 by ring.
  now rewrite div_zero_truthy.
Qed.

End TapeLine.

(** ** Monotonicity in the pixel height *)

Section Monotone.

Variables (s : Session) (lb lt rb rt : Point).

Hypothesis Hppm : pixelsPerMeter s = Some (scaleOf lb lt rb rt).
Hypothesis Htl : topLine s = Some (tapeOf lt rt).
Hypothesis Hscale : scaleOf lb lt rb rt <> Fin 0.
Hypothesis Hx : ptx lt <> ptx rt.

(** With a non-zero scale and a finite tape line the height of a point is
    the finite number [(m * x0 + b - y0) / pixelsPerMeter], and the scale
    is positive. *)
Lemma metersAboveNetAtPoint_Fin :
  exists p slope icpt,
    0 < p /\
    forall x0 y0,
      metersAboveNetAtPoint s x0 y0 =
      Some (Fin ((slope * x0 + icpt - y0) / p)).
Proof.
  destruct (scaleOf_nonneg lb lt rb rt) as [p [Ep Hp]].
  assert (Hp0 : p <> 0) by (intros ->; now apply Hscale).
  assert (Hpos : 0 < p).
  { destruct (Qcle_lt_or_eq _ _ Hp) as [L | E]; [exact L|].
    now elim Hp0. }
  exists p. eexists. eexists. split; [exact Hpos|].
  intros x0 y0. unfold metersAboveNetAtPoint.
  rewrite Hppm, Htl, Ep, (tapeOf_Fin lt rt Hx).
  cbn [truthy negb m b].
  apply Qceqb_neq in Hp0. rewrite Hp0. cbn [negb mul add].
  rewrite sub_Fin, div_Fin by (now apply Qceqb_neq).
  reflexivity.
Qed.

(** C8, as the code has it: for the geometry that calibration derives,
    when the scale is not zero and the top corners differ in [x], the
    height above the net at a fixed [x0] is a finite number that strictly
    decreases as the pixel [y] grows. *)
Theorem metersAboveNet_decreasing (x0 y1 y2 : Qc) :
  y1 < y2 ->
  exists a1 a2,
    metersAboveNetAtPoint s x0 y1 = Some (Fin a1) /\
    metersAboveNetAtPoint s x0 y2 = Some (Fin a2) /\
    a2 < a1 /\
    gt (Fin a1) (Fin a2) = true.
Proof.
  intros Hy.
  destruct metersAboveNetAtPoint_Fin as [p [slope [icpt [Hp Hm]]]].
  eexists. eexists. rewrite !Hm.
  split; [reflexivity|]. split; [reflexivity|].
  assert (L : (slope * x0 + icpt - y2) / p < (slope * x0 + icpt - y1) / p).
  { apply Qcdiv_lt_compat; [exact Hp|]. qc_lra. }
  split; [exact L|]. cbn. now apply Qcltb_lt.
Qed.

End Monotone.

(** ** Concrete sessions for the tape line and the monotonicity *)

Section TapeExamples.

(** Literal results are compared through their canonical fractions. *)
Lemma Fin_eq (a : jsnum) (q : Qc) :
  match a with Fin p => (this p == this q)%Q | _ => False end -> a = Fin q.
Proof.
  destruct a as [p| | |]; try contradiction.
  intros H. f_equal. now apply qc_eq.
Qed.

End TapeExamples.

Lemma on_tape_line_zero_witness :
  let lb := mkPoint (qc 100 1) (qc 400 1) in
  let lt := mkPoint (qc 100 1) (qc 100 1) in
  let rb := mkPoint (qc 700 1) (qc 420 1) in
  let rt := mkPoint (qc 700 1) (qc 120 1) in
  let s := calibrated lb lt rb rt demoStart in
  pixelsPerMeter s = Some (scaleOf lb lt rb rt) /\
  topLine s = Some (tapeOf lt rt) /\
  truthy (scaleOf lb lt rb rt) = true /\
  add (mul (m (tapeOf lt rt)) (Fin (qc 400 1))) (b (tapeOf lt rt))
    = Fin (qc 110 1) /\
  metersAboveNetAtPoint s (qc 400 1) (qc 110 1) = Some (Fin 0).
Proof.
  intros lb lt rb rt s.
  assert (Hy : add (mul (m (tapeOf lt rt)) (Fin (qc 400 1))) (b (tapeOf lt rt))
               = Fin (qc 110 1)).
  { apply Fin_eq. vm_compute. reflexivity. }
  split; [reflexivity|]. split; [reflexivity|].
  split; [vm_compute; reflexivity|]. split; [exact Hy|].
  apply (on_tape_line_zero s (scaleOf lb lt rb rt) (tapeOf lt rt)).
  - reflexivity.
  - reflexivity.
  - vm_compute. reflexivity.
  - exact Hy.
Defined.

(** C7, as the spec words it, fails: after the clicks (0,100), (0,100),
    (10,100), (10,100) the scale and the tape line are both set (the scale
    is 0, the line is y = 100), the point (5,100) lies on the line, and its
    height above the net is [null], not 0. *)
Lemma on_tape_line_null_at_zero_scale :
  let lb := mkPoint 0 (qc 100 1) in
  let lt := mkPoint 0 (qc 100 1) in
  let rb := mkPoint (qc 10 1) (qc 100 1) in
  let rt := mkPoint (qc 10 1) (qc 100 1) in
  exists s,
    clicks [lb; lt; rb; rt] demoStart = Some s /\
    pixelsPerMeter s = Some (Fin 0) /\
    topLine s = Some (mkLine (Fin 0) (Fin (qc 100 1))) /\
    add (mul (Fin 0) (Fin (qc 5 1))) (Fin (qc 100 1)) = Fin (qc 100 1) /\
    metersAboveNetAtPoint s (qc 5 1) (qc 100 1) = None /\
    metersAboveNetAtPoint s (qc 5 1) (qc 100 1) <> Some (Fin 0).
Proof.
  intros lb lt rb rt.
  exists (calibrated lb lt rb rt demoStart).
  assert (Hz : pixelsPerMeter (calibrated lb lt rb rt demoStart)
               = Some (Fin 0)).
  { rewrite calibrated_pixelsPerMeter. f_equal. now apply scaleOf_zero. }
  split; [apply four_clicks; reflexivity|].
  split; [exact Hz|].
  split.
  { rewrite calibrated_topLine. f_equal.
    rewrite tapeOf_Fin by (apply Qceqb_neq; reflexivity).
    cbv zeta. f_equal; f_equal; apply qc_eq; reflexivity. }
  split; [apply Fin_eq; vm_compute; reflexivity|].
  rewrite (metersAboveNetAtPoint_zero_scale _ Hz).
  split; [reflexivity | discriminate].
Qed.

Lemma metersAboveNet_decreasing_witness :
  let lb := mkPoint (qc 100 1) (qc 400 1) in
  let lt := mkPoint (qc 100 1) (qc 100 1) in
  let rb := mkPoint (qc 700 1) (qc 420 1) in
  let rt := mkPoint (qc 700 1) (qc 120 1) in
  let s := calibrated lb lt rb rt demoStart in
  pixelsPerMeter s = Some (scaleOf lb lt rb rt) /\
  topLine s = Some (tapeOf lt rt) /\
  scaleOf lb lt rb rt <> Fin 0 /\
  ptx lt <> ptx rt /\
  qc 50 1 < qc 300 1 /\
  exists a1 a2,
    metersAboveNetAtPoint s (qc 400 1) (qc 50 1) = Some (Fin a1) /\
    metersAboveNetAtPoint s (qc 400 1) (qc 300 1) = Some (Fin a2) /\
    a2 < a1 /\
    gt (Fin a1) (Fin a2) = true.
Proof.
  intros lb lt rb rt s.
  assert (Hs : scaleOf lb lt rb rt <> Fin 0).
  { intros E. apply (f_equal truthy) in E. vm_compute in E. discriminate E. }
  assert (Hx : ptx lt <> ptx rt) by (apply Qceqb_neq; reflexivity).
  split; [reflexivity|]. split; [reflexivity|].
  split; [exact Hs|]. split; [exact Hx|]. split; [reflexivity|].
  apply (metersAboveNet_decreasing s lb lt rb rt); try reflexivity;
    assumption.
Defined.

(** C8, as the spec words it, fails: in the session with scale 0 and tape
    line y = 100 reached by the clicks (0,100), (0,100), (10,100),
    (10,100), the heights at (5,90) and at (5,100) are both [null], so the
    first is not greater than the second although 90 < 100. *)
Lemma metersAboveNet_not_decreasing_at_zero_scale :
  let lb := mkPoint 0 (qc 100 1) in
  let lt := mkPoint 0 (qc 100 1) in
  let rb := mkPoint (qc 10 1) (qc 100 1) in
  let rt := mkPoint (qc 10 1) (qc 100 1) in
  exists s,
    clicks [lb; lt; rb; rt] demoStart = Some s /\
    pixelsPerMeter s <> None /\ topLine s <> None /\
    qc 90 1 < qc 100 1 /\
    metersAboveNetAtPoint s (qc 5 1) (qc 90 1) = None /\
    metersAboveNetAtPoint s (qc 5 1) (qc 100 1) = None.
Proof.
  intros lb lt rb rt.
  exists (calibrated lb lt rb rt demoStart).
  assert (Hz : pixelsPerMeter (calibrated lb lt rb rt demoStart)
               = Some (Fin 0)).
  { rewrite calibrated_pixelsPerMeter. f_equal. now apply scaleOf_zero. }
  split; [apply four_clicks; reflexivity|].
  split; [rewrite Hz; discriminate|].
  split; [discriminate|].
  split; [reflexivity|].
  split; apply (metersAboveNetAtPoint_zero_scale _ Hz).
Qed.

Lemma zero_scale_yields_null_witness :
  let lb := mkPoint 0 (qc 100 1) in
  let lt := mkPoint 0 (qc 100 1) in
  let rb := mkPoint (qc 10 1) (qc 100 1) in
  let rt := mkPoint (qc 10 1) (qc 100 1) in
  warmed demoStart = true /\ calibStep demoStart = 0%nat /\
  pty lt = pty lb /\ pty rt = pty rb /\
  exists s1,
    clicks [lb; lt; rb; rt] demoStart = Some s1 /\
    calibStep s1 = 4%nat /\
    pixelsPerMeter s1 = Some (Fin 0) /\
    forall s2, pixelsPerMeter s2 = pixelsPerMeter s1 ->
      (forall x0 y0, metersAboveNetAtPoint s2 x0 y0 = None) /\
      (forall p1 p2, metersHorizDistance s2 p1 p2 = None) /\
      (forall r, In r (trails (computeAllRepMetrics s2)) ->
         peakM r = None /\ aboveNetCM r = None /\ widthM r = None).
Proof.
  intros lb lt rb rt.
  repeat (split; [reflexivity|]).
  apply (zero_scale_yields_null demoStart lb lt rb rt); reflexivity.
Defined.

(** ** Averages *)

Section Averages.

Lemma add_assoc (a c d : jsnum) : add a (add c d) = add (add a c) d.
Proof.
  destruct a, c, d; cbn; try reflexivity.
  f_equal. apply Qcplus_assoc.
Qed.

Lemma add_0_comm (a : jsnum) : add (ofZ 0) a = add a (ofZ 0).
Proof.
  destruct a; cbn; try reflexivity.
  f_equal. apply Qcplus_comm.
Qed.

Lemma statsStep_sumPeak (i : Z) (r : Rep) (a : Acc) :
  sumPeak (statsStep i r a) =
  match peakM r with Some p => add (sumPeak a) p | None => sumPeak a end.
Proof.
  unfold statsStep.
  destruct (peakM r) as [p|], (widthM r) as [w|]; cbn;
    try destruct (gt p (accBestVal a)); reflexivity.
Qed.

Lemma statsStep_nPeak (i : Z) (r : Rep) (a : Acc) :
  nPeak (statsStep i r a) =
  match peakM r with Some _ => (nPeak a + 1)%Z | None => nPeak a end.
Proof.
  unfold statsStep.
  destruct (peakM r) as [p|], (widthM r) as [w|]; cbn;
    try destruct (gt p (accBestVal a)); reflexivity.
Qed.

Lemma statsStep_sumWidth (i : Z) (r : Rep) (a : Acc) :
  sumWidth (statsStep i r a) =
  match widthM r with Some w => add (sumWidth a) w | None => sumWidth a end.
Proof.
  unfold statsStep.
  destruct (peakM r) as [p|], (widthM r) as [w|]; cbn;
    try destruct (gt p (accBestVal a)); reflexivity.
Qed.

Lemma statsStep_nWidth (i : Z) (r : Rep) (a : Acc) :
  nWidth (statsStep i r a) =
  match widthM r with Some _ => (nWidth a + 1)%Z | None => nWidth a end.
Proof.
  unfold statsStep.
  destruct (peakM r) as [p|], (widthM r) as [w|]; cbn;
    try destruct (gt p (accBestVal a)); reflexivity.
Qed.

(** The loop adds the defined values to the running sums, in rep order,
    and counts them. *)
Lemma statsLoop_sums (rs : list Rep) :
  forall i a,
    let a' := statsLoop i rs a in
    sumPeak a' = fold_left add (definedValues peakM rs) (sumPeak a) /\
    nPeak a' = (nPeak a + Z.of_nat (List.length (definedValues peakM rs)))%Z /\
    sumWidth a' = fold_left add (definedValues widthM rs) (sumWidth a) /\
    nWidth a' = (nWidth a + Z.of_nat (List.length (definedValues widthM rs)))%Z.
Proof.
  induction rs as [|r rs IH]; intros i a; cbn [statsLoop].
  - cbn. repeat split; lia.
  - destruct (IH (i + 1)%Z (statsStep i r a)) as (H1 & H2 & H3 & H4).
    cbv zeta. rewrite H1, H2, H3, H4.
    rewrite statsStep_sumPeak, statsStep_nPeak,
      statsStep_sumWidth, statsStep_nWidth.
    unfold definedValues. cbn [flat_map].
    destruct (peakM r) as [p|], (widthM r) as [w|];
      cbn [app fold_left List.length]; repeat split; lia.
Qed.

Lemma mean_of_sums (vs : list jsnum) :
  (if (0 + Z.of_nat (List.length vs) =? 0)%Z then None
   else Some (div (fold_left add vs (ofZ 0))
                (ofZ (0 + Z.of_nat (List.length vs)))))
  = mean vs.
Proof.
  rewrite Z.add_0_l. unfold mean, total.
  rewrite (fold_symmetric add add_assoc (ofZ 0) add_0_comm).
  destruct vs as [|v vs]; [reflexivity|].
  destruct (Z.of_nat (List.length (v :: vs)) =? 0)%Z eqn:E; [|reflexivity].
  apply Z.eqb_eq in E. cbn [List.length] in E. lia.
Qed.

(** C5: the average peak is the arithmetic mean of the peaks of the reps
    that have one, and [null] when no rep has one; reps without a peak
    count neither in the sum nor in the divisor.  The average width is the
    same over the widths. *)
Theorem averages_are_means_of_defined (rs : list Rep) :
  avgPeak (statsSummary rs) = mean (definedValues peakM rs) /\
  avgWidth (statsSummary rs) = mean (definedValues widthM rs).
Proof.
  unfold statsSummary. cbn [avgPeak avgWidth].
  destruct (statsLoop_sums rs 0%Z acc0) as (H1 & H2 & H3 & H4).
  cbv zeta in H1, H2, H3, H4. rewrite H1, H2, H3, H4.
  cbn [acc0 sumPeak nPeak sumWidth nWidth].
  split; apply mean_of_sums.
Qed.

End Averages.

(** ** The best peak *)

Section BestPeak.

(** [a > b] on numbers that are not [NaN] is a strict total order. *)
Ltac order_cases :=
  cbn in *; try discriminate; try reflexivity; try congruence;
  repeat match goal with
    | H : Qcltb _ _ = true |- _ => apply Qcltb_lt in H
    | H : Qcltb _ _ = false |- _ => apply Qcltb_ge in H
    | |- Qcltb _ _ = true => apply Qcltb_lt
    | |- Qcltb _ _ = false => apply Qcltb_ge
    end;
  try qc_lra.

Lemma gt_trans (a c d : jsnum) :
  gt a c = true -> gt c d = true -> gt a d = true.
Proof. destruct a, c, d; intros; order_cases. Qed.

Lemma gt_le_trans (a c d : jsnum) :
  gt a c = true -> gt d c = false -> d <> NaN -> gt a d = true.
Proof. destruct a, c, d; intros; order_cases. Qed.

Lemma le_le_trans (a c d : jsnum) :
  gt a c = false -> gt c d = false -> c <> NaN -> gt a d = false.
Proof. destruct a, c, d; intros; order_cases. Qed.

Lemma le_gt_le (a c d : jsnum) :
  gt a d = false -> gt a c = true -> gt c d = false.
Proof. destruct a, c, d; intros; order_cases. Qed.

Lemma statsStep_best (i : Z) (r : Rep) (a : Acc) :
  (accBestIdx (statsStep i r a), accBestVal (statsStep i r a)) =
  match peakM r with
  | Some p => if gt p (accBestVal a) then (i, p)
              else (accBestIdx a, accBestVal a)
  | None => (accBestIdx a, accBestVal a)
  end.
Proof.
  unfold statsStep.
  destruct (peakM r) as [p|], (widthM r) as [w|]; cbn;
    try destruct (gt p (accBestVal a)); reflexivity.
Qed.

Lemma finite_not_NaN (w : jsnum) : isFinite w = true -> w <> NaN.
Proof. destruct w; cbn; congruence. Qed.

(** The loop invariant of the scan for the best peak. *)
Lemma statsLoop_best (rs : list Rep) :
  finitePeaks rs ->
  forall i a, accBestVal a <> NaN ->
    let a' := statsLoop i rs a in
    gt (accBestVal a) (accBestVal a') = false /\
    accBestVal a' <> NaN /\
    (forall j r w,
       nth_error rs j = Some r -> peakM r = Some w ->
       gt w (accBestVal a') = false) /\
    ((accBestIdx a' = accBestIdx a /\ accBestVal a' = accBestVal a) \/
     (exists k r,
        accBestIdx a' = (i + Z.of_nat k)%Z /\
        nth_error rs k = Some r /\
        peakM r = Some (accBestVal a') /\
        gt (accBestVal a') (accBestVal a) = true /\
        forall j r' w,
          (j < k)%nat -> nth_error rs j = Some r' -> peakM r' = Some w ->
          gt (accBestVal a') w = true)).
Proof.
  induction rs as [|r rs IH]; intros Hfin i a Hnan; cbn [statsLoop]; cbv zeta.
  - repeat split.
    + destruct (accBestVal a); cbn; try reflexivity; try congruence.
      apply Qcltb_irrefl.
    + exact Hnan.
    + intros [|j] r w H; discriminate H.
    + left. split; reflexivity.
  - assert (Hfin' : finitePeaks rs).
    { intros r' w Hin. apply Hfin. now right. }
    pose proof (statsStep_best i r a) as Hstep.
    set (a1 := statsStep i r a) in *.
    assert (Hnan1 : accBestVal a1 <> NaN).
    { destruct (peakM r) as [p|] eqn:Ep.
      - destruct (gt p (accBestVal a)); injection Hstep as E1 E2; rewrite E2.
        + apply finite_not_NaN. apply (Hfin r p); [now left | exact Ep].
        + exact Hnan.
      - injection Hstep as E1 E2. now rewrite E2. }
    destruct (IH Hfin' (i + 1)%Z a1 Hnan1) as (I1 & I0 & I2 & I3).
    cbv zeta in I1, I2, I3.
    set (a' := statsLoop (i + 1) rs a1) in *.
    destruct (peakM r) as [p|] eqn:Ep.
    + assert (Hp : p <> NaN).
      { apply finite_not_NaN. apply (Hfin r p); [now left | exact Ep]. }
      destruct (gt p (accBestVal a)) eqn:Eg; injection Hstep as E1 E2.
      * (* the rep at [i] becomes the running best *)
        rewrite E2 in I1.
        split; [now apply (le_gt_le p)|].
        split; [exact I0|].
        split.
        { intros [|j] r' w Hn Hw; cbn in Hn.
          - inversion Hn; subst r'. rewrite Ep in Hw. inversion Hw; subst w.
            exact I1.
          - now apply (I2 j r' w). }
        right. destruct I3 as [[J1 J2] | (k & r' & J1 & J2 & J3 & J4 & J5)].
        { exists 0%nat, r. rewrite J1, J2, E1, E2.
          split; [lia|]. split; [reflexivity|]. split; [exact Ep|].
          split; [exact Eg|].
          intros j r' w Hj. lia. }
        { exists (S k), r'. rewrite E2 in J4.
          split; [lia|]. split; [exact J2|]. split; [exact J3|].
          split; [now apply (gt_trans _ p)|].
          intros [|j] r'' w Hj Hn Hw; cbn in Hn.
          - inversion Hn; subst r''. rewrite Ep in Hw.
            inversion Hw; subst w. exact J4.
          - apply (J5 j r'' w); [lia | exact Hn | exact Hw]. }
      * (* the running best stays *)
        rewrite E2 in I1.
        split; [exact I1|]. split; [exact I0|].
        split.
        { intros [|j] r' w Hn Hw; cbn in Hn.
          - inversion Hn; subst r'. rewrite Ep in Hw. inversion Hw; subst w.
            now apply (le_le_trans p (accBestVal a)).
          - now apply (I2 j r' w). }
        destruct I3 as [[J1 J2] | (k & r' & J1 & J2 & J3 & J4 & J5)].
        { left. rewrite J1, J2, E1, E2. split; reflexivity. }
        { right. exists (S k), r'. rewrite E2 in J4.
          split; [lia|]. split; [exact J2|]. split; [exact J3|].
          split; [exact J4|].
          intros [|j] r'' w Hj Hn Hw; cbn in Hn.
          - inversion Hn; subst r''. rewrite Ep in Hw.
            inversion Hw; subst w.
            now apply (gt_le_trans _ (accBestVal a)).
          - apply (J5 j r'' w); [lia | exact Hn | exact Hw]. }
    + injection Hstep as E1 E2. rewrite E2 in I1.
      split; [exact I1|]. split; [exact I0|].
      split.
      { intros [|j] r' w Hn Hw; cbn in Hn.
        - inversion Hn; subst r'. congruence.
        - now apply (I2 j r' w). }
      destruct I3 as [[J1 J2] | (k & r' & J1 & J2 & J3 & J4 & J5)].
      { left. rewrite J1, J2, E1, E2. split; reflexivity. }
      { right. exists (S k), r'. rewrite E2 in J4.
        split; [lia|]. split; [exact J2|]. split; [exact J3|].
        split; [exact J4|].
        intros [|j] r'' w Hj Hn Hw; cbn in Hn.
        - inversion Hn; subst r''. congruence.
        - apply (J5 j r'' w); [lia | exact Hn | exact Hw]. }
Qed.

Lemma definedValues_nil (f : Rep -> option jsnum) (rs : list Rep) :
  definedValues f rs = [] <-> (forall r, In r rs -> f r = None).
Proof.
  unfold definedValues. induction rs as [|r rs IH]; cbn [flat_map].
  - split; [intros _ r []| reflexivity].
  - destruct (f r) as [v|] eqn:E; cbn [app].
    + split; [discriminate|]. intros H.
      specialize (H r (or_introl eq_refl)). congruence.
    + rewrite IH. split.
      * intros H r' [<- | Hin]; [exact E | now apply H].
      * intros H r' Hin. apply H. now right.
Qed.

(** The scan of [renderStatsTable] over reps whose peaks are finite. *)
Lemma statsSummary_best (rs : list Rep) :
  finitePeaks rs ->
  let sm := statsSummary rs in
  (definedValues peakM rs = [] -> bestIdx sm = (-1)%Z) /\
  (definedValues peakM rs <> [] ->
     exists i, bestIdx sm = Z.of_nat i /\ firstStrictMax rs i (bestVal sm)).
Proof.
  intros Hfin sm.
  assert (H0 : accBestVal acc0 <> NaN) by discriminate.
  destruct (statsLoop_best rs Hfin 0%Z acc0 H0) as (_ & _ & I2 & I3).
  cbv zeta in I2, I3.
  change (accBestIdx (statsLoop 0 rs acc0)) with (bestIdx sm) in *.
  change (accBestVal (statsLoop 0 rs acc0)) with (bestVal sm) in *.
  split.
  - intros Hnil.
    destruct I3 as [[J1 _] | (k & r & _ & J2 & J3 & _)]; [exact J1|].
    apply nth_error_In in J2.
    rewrite (proj1 (definedValues_nil peakM rs) Hnil r J2) in J3.
    discriminate J3.
  - intros Hne.
    destruct I3 as [[_ J2] | (k & r & J1 & J2 & J3 & _ & J5)].
    + exfalso. apply Hne. apply definedValues_nil. intros r Hin.
      destruct (peakM r) as [w|] eqn:Ew; [|reflexivity].
      destruct (In_nth_error _ _ Hin) as [j Hj].
      pose proof (I2 j r w Hj Ew) as Hle.
      pose proof (Hfin r w Hin Ew) as Hw.
      rewrite J2 in Hle. destruct w; cbn in Hw, Hle; discriminate.
    + exists k. split; [lia|].
      split; [exists r; split; assumption|].
      split; assumption.
Qed.

(** Every peak that [computeAllRepMetrics] stores is a finite number. *)
Lemma computeRepMetrics_peak_finite (s : Session) (rep : Rep) (w : jsnum) :
  peakM (computeRepMetrics s rep) = Some w -> isFinite w = true.
Proof.
  unfold computeRepMetrics.
  destruct (points rep) as [|p0 [|p1 ps]]; cbn -[peakAbove last];
    try discriminate.
  destruct (peakAbove s (p0 :: p1 :: ps)) as [q| | |]; cbn;
    try discriminate.
  intros E. injection E as <-. reflexivity.
Qed.

Lemma computeAllRepMetrics_finitePeaks (s : Session) :
  finitePeaks (trails (computeAllRepMetrics s)).
Proof.
  intros r w Hin Hw. cbn in Hin. apply in_map_iff in Hin.
  destruct Hin as [r0 [<- _]].
  now apply computeRepMetrics_peak_finite in Hw.
Qed.

(** C6: over the metrics that [computeAllRepMetrics] has stored, the best
    rep of the stats table is the first rep, in rep order, whose peak is
    the greatest defined one: no defined peak exceeds it and every defined
    peak before it is strictly smaller, so that of two reps that tie for
    the maximum the earlier one is kept; when no rep has a peak the index
    stays -1 and no best rep is shown. *)
Theorem bestPeak_first_strict_max (s : Session) :
  let rs := trails (computeAllRepMetrics s) in
  let sm := statsSummary rs in
  (definedValues peakM rs = [] -> bestIdx sm = (-1)%Z) /\
  (definedValues peakM rs <> [] ->
     exists i, bestIdx sm = Z.of_nat i /\ firstStrictMax rs i (bestVal sm)).
Proof.
  apply statsSummary_best. apply computeAllRepMetrics_finitePeaks.
Qed.

End BestPeak.

(** ** The end-to-end scenario *)

Section Scenario.

Lemma scenario_scale :
  scaleOf demoLB demoLT demoRB demoRT = Fin (qc 300 1 / qc 243 100).
Proof. apply Fin_eq. vm_compute. reflexivity. Qed.

Lemma scenario_tape :
  tapeOf demoLT demoRT = mkLine (Fin (qc 1 30)) (Fin (qc 290 3)).
Proof.
  rewrite tapeOf_Fin by (apply Qceqb_neq; reflexivity).
  cbv zeta. f_equal; f_equal; apply qc_eq; reflexivity.
Qed.

Variable s : Session.
Hypothesis Hppm : pixelsPerMeter s = Some (Fin (qc 300 1 / qc 243 100)).
Hypothesis Htl : topLine s = Some (mkLine (Fin (qc 1 30)) (Fin (qc 290 3))).

Lemma scenario_metersAboveNet (x0 y0 : Qc) :
  metersAboveNetAtPoint s x0 y0 = Some (Fin (scenarioHeight x0 y0)).
Proof.
  unfold metersAboveNetAtPoint. rewrite Hppm, Htl. reflexivity.
Qed.

Lemma scenario_height_peak : scenarioHeight (qc 400 1) (qc 50 1) = qc 486 1000.
Proof. apply qc_eq. reflexivity. Qed.

Lemma scenario_height_below (x0 y0 : Qc) :
  qc 1 30 * x0 + qc 290 3 < y0 ->
  scenarioHeight x0 y0 < scenarioHeight (qc 400 1) (qc 50 1).
Proof.
  intros H. unfold scenarioHeight.
  apply Qcdiv_lt_compat; [reflexivity|].
  apply Qclt_trans with (y := 0).
  - unfold qc in *. qc_lra.
  - reflexivity.
Qed.

(** The running maximum over the two points, in either order. *)
Lemma scenario_peakAbove (p1 p2 : RepPoint) :
  x p1 = qc 400 1 -> y p1 = qc 50 1 ->
  qc 1 30 * x p2 + qc 290 3 < y p2 ->
  peakAbove s [p1; p2] = Fin (qc 486 1000) /\
  peakAbove s [p2; p1] = Fin (qc 486 1000).
Proof.
  intros Hx Hy Hlow.
  pose proof (scenario_height_below _ _ Hlow) as L.
  unfold peakAbove. cbn [fold_left].
  rewrite !scenario_metersAboveNet, Hx, Hy.
  cbn [gt]. rewrite (proj2 (Qcltb_lt _ _) L).
  replace (Qcltb (scenarioHeight (qc 400 1) (qc 50 1))
             (scenarioHeight (x p2) (y p2))) with false.
  - rewrite scenario_height_peak. split; reflexivity.
  - symmetry. apply Qcltb_ge. apply Qclt_le_weak. exact L.
Qed.

Lemma scenario_metrics (rep : Rep) (p1 p2 : RepPoint) :
  x p1 = qc 400 1 -> y p1 = qc 50 1 ->
  qc 1 30 * x p2 + qc 290 3 < y p2 ->
  points rep = [p1; p2] \/ points rep = [p2; p1] ->
  peakM (computeRepMetrics s rep) = Some (Fin (qc 2916 1000)) /\
  aboveNetCM (computeRepMetrics s rep) = Some (Fin (qc 49 1)).
Proof.
  intros Hx Hy Hlow Hpts.
  destruct (scenario_peakAbove p1 p2 Hx Hy Hlow) as [P1 P2].
  unfold computeRepMetrics.
  destruct Hpts as [E | E]; rewrite E; cbn -[peakAbove last];
    rewrite ?P1, ?P2; cbn -[last];
    split; f_equal; apply Fin_eq; vm_compute; reflexivity.
Qed.

End Scenario.

(** C1: the four clicks (100,400), (100,100), (700,420), (700,120) give
    antenna heights of 300 and 300, a scale of 300/2.43 pixels per metre
    and the tape line y = x/30 + 290/3.  In that geometry the point
    (400,50) is 0.486 m above the net, and a rep made of that point and of
    any point below the tape line, in either order, gets a peak height of
    2.916 m and 49 cm above the net. *)
Theorem end_to_end_scenario (s0 : Session) (p1 p2 : RepPoint) (rep : Rep) :
  warmed s0 = true -> calibStep s0 = 0%nat ->
  x p1 = qc 400 1 -> y p1 = qc 50 1 ->
  qc 1 30 * x p2 + qc 290 3 < y p2 ->
  points rep = [p1; p2] \/ points rep = [p2; p1] ->
  let lb := mkPoint (qc 100 1) (qc 400 1) in
  let lt := mkPoint (qc 100 1) (qc 100 1) in
  let rb := mkPoint (qc 700 1) (qc 420 1) in
  let rt := mkPoint (qc 700 1) (qc 120 1) in
  exists s,
    clicks [lb; lt; rb; rt] s0 = Some s /\
    antennaHeight lt lb = Fin (qc 300 1) /\
    antennaHeight rt rb = Fin (qc 300 1) /\
    pixelsPerMeter s = Some (Fin (qc 300 1 / qc 243 100)) /\
    topLine s = Some (mkLine (Fin (qc 1 30)) (Fin (qc 290 3))) /\
    metersAboveNetAtPoint s (qc 400 1) (qc 50 1) = Some (Fin (qc 486 1000)) /\
    peakM (computeRepMetrics s rep) = Some (Fin (qc 2916 1000)) /\
    aboveNetCM (computeRepMetrics s rep) = Some (Fin (qc 49 1)).
Proof.
  intros Hw Hc Hx Hy Hlow Hpts lb lt rb rt.
  exists (calibrated lb lt rb rt s0).
  assert (Hppm : pixelsPerMeter (calibrated lb lt rb rt s0)
                 = Some (Fin (qc 300 1 / qc 243 100))).
  { exact (f_equal Some scenario_scale). }
  assert (Htl : topLine (calibrated lb lt rb rt s0)
                = Some (mkLine (Fin (qc 1 30)) (Fin (qc 290 3)))).
  { exact (f_equal Some scenario_tape). }
  split; [now apply four_clicks|].
  split; [apply Fin_eq; vm_compute; reflexivity|].
  split; [apply Fin_eq; vm_compute; reflexivity|].
  split; [exact Hppm|]. split; [exact Htl|].
  split.
  - rewrite (scenario_metersAboveNet _ Hppm Htl).
    now rewrite scenario_height_peak.
  - now apply (scenario_metrics _ Hppm Htl rep p1 p2).
Qed.

Lemma end_to_end_scenario_witness :
  let p1 := mkRepPoint (qc 400 1) (qc 50 1) (qc 2 1) in
  let p2 := mkRepPoint (qc 500 1) (qc 300 1) (qc 3 1) in
  let rep := mkRep [p1; p2] (Some [255; 80; 80]%Z) None None None None in
  warmed demoStart = true /\ calibStep demoStart = 0%nat /\
  x p1 = qc 400 1 /\ y p1 = qc 50 1 /\
  qc 1 30 * x p2 + qc 290 3 < y p2 /\
  (points rep = [p1; p2] \/ points rep = [p2; p1]) /\
  exists s,
    clicks demoCorners demoStart = Some s /\
    antennaHeight (mkPoint (qc 100 1) (qc 100 1))
      (mkPoint (qc 100 1) (qc 400 1)) = Fin (qc 300 1) /\
    antennaHeight (mkPoint (qc 700 1) (qc 120 1))
      (mkPoint (qc 700 1) (qc 420 1)) = Fin (qc 300 1) /\
    pixelsPerMeter s = Some (Fin (qc 300 1 / qc 243 100)) /\
    topLine s = Some (mkLine (Fin (qc 1 30)) (Fin (qc 290 3))) /\
    metersAboveNetAtPoint s (qc 400 1) (qc 50 1) = Some (Fin (qc 486 1000)) /\
    peakM (computeRepMetrics s rep) = Some (Fin (qc 2916 1000)) /\
    aboveNetCM (computeRepMetrics s rep) = Some (Fin (qc 49 1)).
Proof.
  intros p1 p2 rep.
  repeat (split; [reflexivity|]).
  split; [left; reflexivity|].
  apply (end_to_end_scenario demoStart p1 p2 rep);
    try reflexivity.
  left; reflexivity.
Defined.

Lemma bestPeak_first_strict_max_witness :
  let p1 := mkRepPoint (qc 400 1) (qc 50 1) (qc 2 1) in
  let p2 := mkRepPoint (qc 500 1) (qc 300 1) (qc 3 1) in
  let p3 := mkRepPoint (qc 300 1) (qc 200 1) (qc 4 1) in
  let r1 := mkRep [p3; p2] None None None None None in
  let r2 := mkRep [p1; p2] None None None None None in
  let r3 := mkRep [p2; p1] None None None None None in
  let r4 := mkRep [p2] None None None None None in
  let s := set_trails [r1; r2; r3; r4]
             (calibrated (mkPoint (qc 100 1) (qc 400 1))
                (mkPoint (qc 100 1) (qc 100 1))
                (mkPoint (qc 700 1) (qc 420 1))
                (mkPoint (qc 700 1) (qc 120 1)) demoStart) in
  let rs := trails (computeAllRepMetrics s) in
  definedValues peakM rs <> [] /\
  bestIdx (statsSummary rs) = 1%Z /\
  exists i,
    bestIdx (statsSummary rs) = Z.of_nat i /\
    firstStrictMax rs i (bestVal (statsSummary rs)).
Proof.
  intros p1 p2 p3 r1 r2 r3 r4 s rs.
  assert (Hne : definedValues peakM rs <> []).
  { intros E. apply (f_equal (@List.length jsnum)) in E.
    vm_compute in E. discriminate E. }
  split; [exact Hne|].
  split; [vm_compute; reflexivity|].
  exact (proj2 (bestPeak_first_strict_max s) Hne).
Defined.

(** ** A tape line that is not finite *)

Section NonFiniteTape.

Variables (s : Session) (tl : Line).

Hypothesis Htl : topLine s = Some tl.
Hypothesis Hslope : isFinite (m tl) = false.

(** No point has a finite height above a tape line of non-finite slope. *)
Lemma nonfinite_height (x0 y0 : Qc) (a : jsnum) :
  metersAboveNetAtPoint s x0 y0 = Some a -> isFinite a = false.
Proof.
  unfold metersAboveNetAtPoint. rewrite Htl.
  destruct (pixelsPerMeter s) as [ppm|]; [|discriminate].
  destruct (negb (truthy ppm)); [discriminate|].
  intros E. injection E as <-.
  destruct (m tl) as [q| | |]; [discriminate Hslope| | |];
    destruct (b tl), ppm; cbn;
    repeat match goal with
      | |- context [Qceqb ?u ?v] => destruct (Qceqb u v); cbn
      | |- context [Qcltb ?u ?v] => destruct (Qcltb u v); cbn
      end; reflexivity.
Qed.

Lemma nonfinite_peakAbove (pts : list RepPoint) :
  isFinite (peakAbove s pts) = false.
Proof.
  unfold peakAbove.
  assert (H : isFinite NInf = false) by reflexivity.
  revert H. generalize NInf as acc.
  induction pts as [|p ps IH]; intros acc Hacc; cbn [fold_left].
  - exact Hacc.
  - apply IH.
    destruct (metersAboveNetAtPoint s (x p) (y p)) as [a|] eqn:E;
      [|exact Hacc].
    destruct (gt a acc); [|exact Hacc].
    now apply (nonfinite_height (x p) (y p)).
Qed.

(** The check [isFinite(peakAboveM)] then leaves the peak height and the
    centimetres above the net of every rep at [null]. *)
Lemma nonfinite_tape_peak_null (rep : Rep) :
  peakM (computeRepMetrics s rep) = None /\
  aboveNetCM (computeRepMetrics s rep) = None.
Proof.
  unfold computeRepMetrics.
  destruct (points rep) as [|p0 [|p1 ps]]; cbn -[peakAbove last]; auto.
  rewrite nonfinite_peakAbove. cbn. auto.
Qed.

End NonFiniteTape.

(** ** The end of the video *)

Section VideoEnded.

(** The stats div shows the summary of the metrics computed for the reps
    recorded so far. *)
Lemma videoEnded_summary (s : Session) :
  trails (videoEnded s) = trails (computeAllRepMetrics s) /\
  html (statsDiv (videoEnded s))
  = Some (statsSummary (trails (computeAllRepMetrics s))).
Proof.
  unfold videoEnded, updateDashboard.
  match goal with
  | |- context [if ?c then _ else _] => destruct c
  end; split; reflexivity.
Qed.

End VideoEnded.

(** ** A summary computed on three reps *)

Section SummaryExample.

Lemma SomeFin_eq (v : option jsnum) (q : Qc) :
  match v with Some (Fin p) => (this p == this q)%Q | _ => False end ->
  v = Some (Fin q).
Proof.
  destruct v as [[p| | |]|]; try contradiction.
  intros H. do 2 f_equal. now apply qc_eq.
Qed.

(** Peaks 2, [null] and 3: the average is 5/2, not 5/3, and widths 1 and
    [null], [null] average to 1. *)
Example average_skips_null_peak :
  let r1 := mkRep [] None (Some (ofZ 2)) None (Some (ofZ 1)) None in
  let r2 := mkRep [] None None None None None in
  let r3 := mkRep [] None (Some (ofZ 3)) None None None in
  avgPeak (statsSummary [r1; r2; r3]) = Some (Fin (qc 5 2)) /\
  avgWidth (statsSummary [r1; r2; r3]) = Some (ofZ 1) /\
  avgPeak (statsSummary [r2]) = None.
Proof.
  intros r1 r2 r3. split; [|split].
  - apply SomeFin_eq. vm_compute. reflexivity.
  - apply SomeFin_eq. vm_compute. reflexivity.
  - reflexivity.
Qed.

(** Peaks 3, 3 and 2: the first of the two reps that tie is the best. *)
Example best_of_tie_is_first :
  let r1 := mkRep [] None (Some (ofZ 3)) None None None in
  let r2 := mkRep [] None (Some (ofZ 3)) None None None in
  let r3 := mkRep [] None (Some (ofZ 2)) None None None in
  bestIdx (statsSummary [r1; r2; r3]) = 0%Z /\
  bestIdx (statsSummary [r3; r1; r2]) = 1%Z /\
  bestIdx (statsSummary []) = (-1)%Z.
Proof. intros r1 r2 r3. repeat split; vm_compute; reflexivity. Qed.

End SummaryExample.

(** ** Invariants kept by every handler *)

Section Invariants.

Lemma palette_mod (i : nat) : In (nth (i mod 7) PALETTE []) PALETTE.
Proof.
  apply nth_In. change (List.length PALETTE) with 7%nat.
  apply Nat.mod_upper_bound. discriminate.
Qed.

Lemma coloured_fresh (s : Session) : coloured (current (freshCurrent s)).
Proof.
  eexists. split; [reflexivity|]. apply palette_mod.
Qed.

Lemma sameCalibration_refl (s : Session) : sameCalibration s s.
Proof. repeat split. Qed.

Lemma cornersMatchStep_le (s : Session) :
  cornersMatchStep s = true -> (calibStep s <= 4)%nat.
Proof.
  unfold cornersMatchStep.
  destruct (calibStep s) as [|[|[|[|[|n]]]]]; try lia;
    destruct (calibPts s) as [[?|] [?|] [?|] [?|]]; discriminate.
Qed.

Lemma sameCalibration_corners (s s' : Session) :
  sameCalibration s s' ->
  cornersMatchStep s = true -> cornersMatchStep s' = true.
Proof.
  intros (E1 & E2 & _ & _). unfold cornersMatchStep. now rewrite E1, E2.
Qed.

Lemma sameCalibration_geometry (s s' : Session) :
  sameCalibration s s' ->
  geometryMatchesCorners s -> geometryMatchesCorners s'.
Proof.
  intros (_ & E2 & E3 & E4). unfold geometryMatchesCorners.
  now rewrite E2, E3, E4.
Qed.

(** A handler that leaves the calibration state and the trails alone and
    keeps the active rep coloured and, during calibration, empty. *)
Lemma Inv3_recorder (s s' : Session) :
  sameCalibration s s' ->
  (forall r, In r (trails s') -> points r <> [] /\ coloured r) ->
  coloured (current s') ->
  ((calibStep s < 4)%nat -> trails s' = [] /\ points (current s') = []) ->
  Inv3 s -> Inv3 s'.
Proof.
  intros Hsame Ht Hc Hpre (I1 & I2 & _).
  split; [now apply (sameCalibration_corners s)|].
  split; [now apply (sameCalibration_geometry s)|].
  destruct Hsame as (E1 & _).
  split; [exact Ht|]. split; [exact Hc|].
  rewrite E1. exact Hpre.
Qed.

Lemma Inv3_same (s s' : Session) :
  sameCalibration s s' ->
  trails s' = trails s -> current s' = current s ->
  Inv3 s -> Inv3 s'.
Proof.
  intros Hsame Et Ec I. pose proof I as (_ & _ & Ht & Hc & Hpre).
  apply (Inv3_recorder s s' Hsame); rewrite ?Et, ?Ec; assumption.
Qed.

Lemma Inv3_freshCurrent (s : Session) : Inv3 s -> Inv3 (freshCurrent s).
Proof.
  intros I. pose proof I as (_ & _ & Ht & _ & Hpre).
  apply (Inv3_recorder s); [repeat split | exact Ht | | | exact I].
  - apply coloured_fresh.
  - intros H. split; [now apply Hpre | reflexivity].
Qed.

Lemma Inv3_keyN (s : Session) : Inv3 s -> Inv3 (keyN s).
Proof.
  intros I. unfold keyN.
  destruct (List.length (points (current s)) =? 0)%nat eqn:E.
  - now apply Inv3_freshCurrent.
  - apply Inv3_freshCurrent.
    pose proof I as (_ & _ & Ht & Hc & Hpre).
    apply Nat.eqb_neq in E.
    assert (Hne : points (current s) <> []).
    { intros E0. apply E. now rewrite E0. }
    apply (Inv3_recorder s); [repeat split | | exact Hc | | exact I].
    + cbn. intros r Hin. apply in_app_or in Hin.
      destruct Hin as [Hin | [<- | []]]; [now apply Ht | now split].
    + intros Hlt. destruct (Hpre Hlt) as [_ E0]. contradiction.
Qed.

Lemma Inv3_keyZ (s : Session) : Inv3 s -> Inv3 (keyZ s).
Proof.
  intros I. unfold keyZ.
  destruct (List.length (points (current s)) =? 0)%nat; [exact I|].
  pose proof I as (_ & _ & Ht & Hc & Hpre).
  apply (Inv3_recorder s); [repeat split | exact Ht | exact Hc | | exact I].
  intros Hlt. destruct (Hpre Hlt) as [E1 E2].
  split; [exact E1|]. cbn. now rewrite E2.
Qed.

Lemma coloured_computeRepMetrics (s : Session) (r : Rep) :
  coloured r -> coloured (computeRepMetrics s r).
Proof.
  unfold coloured, computeRepMetrics.
  destruct (points r) as [|p0 [|p1 ps]]; cbn; auto.
Qed.

(** [updateDashboard] sets the visibility from the two conditions. *)
Lemma Inv_updateDashboard (s : Session) : Inv3 s -> Inv (updateDashboard s).
Proof.
  intros I. pose proof I as (I1 & _).
  pose proof (cornersMatchStep_le s I1) as Hle.
  unfold updateDashboard.
  destruct (showAllAtEnd s && (4 <=? calibStep s)%nat) eqn:E.
  - apply andb_true_iff in E. destruct E as [E1 E2].
    apply Nat.leb_le in E2.
    assert (I' : Inv3 (set_toggleLabel
                         (if showTrails s then LabelHide else LabelShow)
                         (set_buttonsShown true s))).
    { apply (Inv3_same s); try reflexivity; [repeat split | exact I]. }
    destruct I' as (J1 & J2 & J3).
    split; [exact J1|]. split; [exact J2|]. split; [exact J3|].
    intros _. cbn. split; [exact E1 | lia].
  - assert (I' : Inv3 (set_buttonsShown false s)).
    { apply (Inv3_same s); try reflexivity; [repeat split | exact I]. }
    destruct I' as (J1 & J2 & J3).
    split; [exact J1|]. split; [exact J2|]. split; [exact J3|].
    intros H. discriminate H.
Qed.

Lemma Inv_Inv3 (s : Session) : Inv s -> Inv3 s.
Proof. intros (I1 & I2 & I3 & _). exact (conj I1 (conj I2 I3)). Qed.

(** A handler that touches neither the calibration state, nor the reps,
    nor the two fields that the dashboard invariant reads. *)
Lemma Inv_same (s s' : Session) :
  sameCalibration s s' ->
  trails s' = trails s -> current s' = current s ->
  buttonsShown s' = buttonsShown s -> showAllAtEnd s' = showAllAtEnd s ->
  Inv s -> Inv s'.
Proof.
  intros Hsame Et Ec Eb Ea I.
  pose proof (Inv3_same s s' Hsame Et Ec (Inv_Inv3 s I)) as (J1 & J2 & J3).
  destruct I as (_ & _ & _ & Hd). destruct Hsame as (E1 & _).
  split; [exact J1|]. split; [exact J2|]. split; [exact J3|].
  unfold dashboardOK in *. now rewrite Eb, Ea, E1.
Qed.

Lemma Inv_of_Inv3 (s s' : Session) :
  Inv s -> Inv3 s' ->
  buttonsShown s' = buttonsShown s -> showAllAtEnd s' = showAllAtEnd s ->
  calibStep s' = calibStep s ->
  Inv s'.
Proof.
  intros (_ & _ & _ & Hd) (J1 & J2 & J3) Eb Ea Ec.
  split; [exact J1|]. split; [exact J2|]. split; [exact J3|].
  unfold dashboardOK in *. now rewrite Eb, Ea, Ec.
Qed.

Lemma Inv_keyN (s : Session) : Inv s -> Inv (keyN s).
Proof.
  intros I. apply (Inv_of_Inv3 s); [exact I | | | |].
  - apply Inv3_keyN. now apply Inv_Inv3.
  - unfold keyN. now destruct (List.length (points (current s)) =? 0)%nat.
  - unfold keyN. now destruct (List.length (points (current s)) =? 0)%nat.
  - unfold keyN. now destruct (List.length (points (current s)) =? 0)%nat.
Qed.

Lemma Inv_keyZ (s : Session) : Inv s -> Inv (keyZ s).
Proof.
  intros I. apply (Inv_of_Inv3 s); [exact I | | | |].
  - apply Inv3_keyZ. now apply Inv_Inv3.
  - unfold keyZ. now destruct (List.length (points (current s)) =? 0)%nat.
  - unfold keyZ. now destruct (List.length (points (current s)) =? 0)%nat.
  - unfold keyZ. now destruct (List.length (points (current s)) =? 0)%nat.
Qed.

Lemma Inv_primeVideo (s : Session) : Inv s -> Inv (primeVideo s).
Proof.
  intros I. unfold primeVideo. destruct (warmed s); [exact I|].
  apply (Inv_same s); try reflexivity; [repeat split | exact I].
Qed.

(** A click during calibration stores the next corner; the fourth one
    derives the geometry. *)
Lemma Inv_calibrationClick (mouseX mouseY : Qc) (s : Session) :
  warmed s = true -> (calibStep s < 4)%nat -> Inv s ->
  exists s', mousePressed mouseX mouseY s = Some s' /\ Inv s' /\
             calibStep s' = S (calibStep s).
Proof.
  intros Hw Hlt (I1 & I2 & (Ht & Hc & Hpre) & Hd).
  destruct (Hpre Hlt) as [Et Ep].
  assert (Hb : buttonsShown s = false).
  { destruct (buttonsShown s) eqn:E; [|reflexivity].
    destruct (Hd E) as [_ E4]. lia. }
  destruct s as [v rd w st tr cur sa sh cs [c1 c2 c3 c4] ppm tl sd sv bs tg pi pt].
  unfold cornersMatchStep, geometryMatchesCorners in I1, I2.
  cbn in Hw, Hlt, I1, I2, Et, Ep, Hb, Hc |- *. subst w tr bs.
  unfold mousePressed. cbn.
  destruct cs as [|[|[|[|n]]]]; [| | | |lia];
    destruct c1 as [p1|], c2 as [p2|], c3 as [p3|], c4 as [p4|];
    try discriminate I1; destruct I2 as [-> ->]; cbn;
    eexists; (split; [reflexivity|]); (split; [|reflexivity]);
    (split; [reflexivity|]);
    (split; [cbn; auto|]);
    (split; [|intros H; discriminate H]);
    (split; [intros r []|]);
    (split; [exact Hc|]);
    cbn; intros H; try lia; auto.
Qed.

Lemma Inv_mousePressed (mouseX mouseY : Qc) (s : Session) :
  Inv s -> exists s', mousePressed mouseX mouseY s = Some s' /\ Inv s'.
Proof.
  intros I.
  destruct (warmed s) eqn:Hw.
  2:{ exists (primeVideo s). unfold mousePressed. rewrite Hw.
      split; [reflexivity | now apply Inv_primeVideo]. }
  destruct (calibStep s <? 4)%nat eqn:Hlt.
  { apply Nat.ltb_lt in Hlt.
    destruct (Inv_calibrationClick mouseX mouseY s Hw Hlt I)
      as (s' & E & I' & _).
    now exists s'. }
  unfold mousePressed. rewrite Hw, Hlt. cbn [negb].
  destruct (started s); cbn [negb].
  2:{ eexists. split; [reflexivity|].
      apply (Inv_same s); try reflexivity; [repeat split | exact I]. }
  destruct (showAllAtEnd s) eqn:Hs.
  { eexists. split; [reflexivity | exact I]. }
  eexists. split; [reflexivity|].
  apply Nat.ltb_ge in Hlt.
  destruct I as (I1 & I2 & (Ht & Hc & Hpre) & Hd).
  split; [exact I1|]. split; [exact I2|].
  split; [|exact Hd].
  split; [exact Ht|]. split; [exact Hc|].
  cbn. intros H. lia.
Qed.

(** The active rep right after [freshCurrent]. *)
Lemma Inv3_fresh (s s' : Session) :
  sameCalibration s s' ->
  trails s' = trails s ->
  current s' = newRep (Some (nth (paletteIdx s mod 7) PALETTE [])) ->
  Inv3 s -> Inv3 s'.
Proof.
  intros Hsame Et Ec I. pose proof I as (_ & _ & Ht & _ & Hpre).
  apply (Inv3_recorder s s' Hsame); [now rewrite Et | | | exact I].
  - rewrite Ec. eexists. split; [reflexivity | apply palette_mod].
  - intros H. rewrite Et, Ec. split; [now apply Hpre | reflexivity].
Qed.

(** The sessions that the full reset builds. *)
Lemma Inv3_reset (s' : Session) (c : Colour) :
  calibStep s' = 0%nat ->
  calibPts s' = mkCalibPts None None None None ->
  pixelsPerMeter s' = None -> topLine s' = None ->
  trails s' = [] -> current s' = newRep (Some c) -> In c PALETTE ->
  Inv3 s'.
Proof.
  intros E1 E2 E3 E4 E5 E6 Hc.
  unfold Inv3, cornersMatchStep, geometryMatchesCorners, recorderOK.
  rewrite E1, E2, E3, E4, E5, E6.
  split; [reflexivity|]. split; [split; reflexivity|].
  split; [intros r []|].
  split; [exists c; split; [reflexivity | exact Hc]|].
  intros _. split; reflexivity.
Qed.

Lemma Inv_keyR (s : Session) : Inv s -> Inv (keyR s).
Proof.
  intros _. unfold keyR. apply Inv_updateDashboard.
  apply (Inv3_reset _ (nth (paletteIdx s mod 7) PALETTE []));
    try reflexivity.
  apply palette_mod.
Qed.

Lemma Inv_keyEnter (s : Session) : Inv s -> Inv (keyEnter s).
Proof.
  intros I. unfold keyEnter. apply Inv_updateDashboard.
  apply (Inv3_fresh s); try reflexivity; [repeat split|].
  now apply Inv_Inv3.
Qed.

Lemma Inv_btnReplayPressed (s : Session) : Inv s -> Inv (btnReplayPressed s).
Proof.
  intros I. unfold btnReplayPressed. apply Inv_updateDashboard.
  apply (Inv3_fresh s); try reflexivity; [repeat split|].
  now apply Inv_Inv3.
Qed.

Lemma Inv_restartVideoHidden (s : Session) :
  Inv s -> Inv (restartVideoHidden s).
Proof.
  intros I. unfold restartVideoHidden. apply Inv_updateDashboard.
  apply (Inv3_fresh s); try reflexivity; [repeat split|].
  now apply Inv_Inv3.
Qed.

(** The metrics pass keeps the points and the colour of every rep. *)
Lemma Inv3_metrics (s s' : Session) :
  sameCalibration s s' ->
  (exists g, trails s' = map (computeRepMetrics g) (trails s)) ->
  current s' = current s ->
  Inv3 s -> Inv3 s'.
Proof.
  intros Hsame [g Et] Ec I. pose proof I as (_ & _ & Ht & Hc & Hpre).
  apply (Inv3_recorder s s' Hsame); [ | now rewrite Ec | | exact I].
  - rewrite Et. intros r Hin. apply in_map_iff in Hin.
    destruct Hin as (r0 & <- & Hin0). destruct (Ht r0 Hin0) as [Hp Hcol].
    split; [now rewrite computeRepMetrics_points|].
    now apply coloured_computeRepMetrics.
  - intros Hlt. destruct (Hpre Hlt) as [E1 E2].
    rewrite Et, Ec, E1. split; [reflexivity | exact E2].
Qed.

Lemma Inv_videoEnded (s : Session) : Inv s -> Inv (videoEnded s).
Proof.
  intros I. unfold videoEnded. apply Inv_updateDashboard.
  apply (Inv3_metrics s); try reflexivity; [repeat split | | ].
  - eexists. reflexivity.
  - now apply Inv_Inv3.
Qed.

Lemma Inv_draw (s : Session) : Inv s -> Inv (draw s).
Proof.
  intros I. unfold draw.
  destruct (calibStep s <? 4)%nat.
  - destruct (negb (warmed s)); [now apply Inv_primeVideo | exact I].
  - apply Inv_updateDashboard. now apply Inv_Inv3.
Qed.

Lemma Inv_primeTimeout (s : Session) : Inv s -> Inv (primeTimeout s).
Proof.
  intros I. unfold primeTimeout.
  destruct (primeTimers s) as [|n]; [exact I|].
  apply Inv_draw.
  apply (Inv_same s); try reflexivity; [repeat split | exact I].
Qed.

Lemma Inv_btnTogglePressed (s : Session) : Inv s -> Inv (btnTogglePressed s).
Proof.
  intros I. unfold btnTogglePressed. apply Inv_updateDashboard.
  apply (Inv3_same s); try reflexivity; [repeat split|].
  now apply Inv_Inv3.
Qed.

Lemma Inv_btnSnapshotPressed (s : Session) :
  Inv s -> Inv (btnSnapshotPressed s).
Proof.
  intros I. unfold btnSnapshotPressed.
  assert (I1 : Inv (draw (set_showTrails true s))).
  { apply Inv_draw.
    apply (Inv_same s); try reflexivity; [repeat split | exact I]. }
  cbv zeta. generalize dependent (draw (set_showTrails true s)).
  intros s1 I1.
  apply (Inv_same s1); try reflexivity; [repeat split | exact I1].
Qed.

Lemma Inv_btnStatsPressed (s : Session) : Inv s -> Inv (btnStatsPressed s).
Proof.
  intros I. apply (Inv_same s); try reflexivity; [repeat split | exact I].
Qed.

Lemma Inv_keyPressed (key : string) (keyCode : Z) (s : Session) :
  Inv s -> Inv (keyPressed key keyCode s).
Proof.
  intros I. unfold keyPressed.
  destruct (calibStep s <? 4)%nat; [exact I|].
  destruct (key =? " ")%string.
  { destruct (paused (vid s));
      (apply (Inv_same s); [repeat split | reflexivity .. | exact I]). }
  destruct ((key =? "N")%string || (key =? "n")%string);
    [exact (Inv_keyN s I)|].
  destruct ((key =? "Z")%string || (key =? "z")%string);
    [exact (Inv_keyZ s I)|].
  destruct (key =? ",")%string.
  { destruct (negb (showAllAtEnd s)); [|exact I].
    apply (Inv_same s); [repeat split | reflexivity .. | exact I]. }
  destruct (key =? ".")%string.
  { destruct (negb (showAllAtEnd s)); [|exact I].
    apply (Inv_same s); [repeat split | reflexivity .. | exact I]. }
  destruct (keyCode =? ENTER)%Z; [exact (Inv_keyEnter s I)|].
  destruct ((key =? "S")%string || (key =? "s")%string);
    [exact (Inv_restartVideoHidden s I)|].
  destruct ((key =? "R")%string || (key =? "r")%string);
    [exact (Inv_keyR s I) | exact I].
Qed.

Lemma Inv_handle (e : Event) (s : Session) :
  Inv s -> exists s', handle e s = Some s' /\ Inv s'.
Proof.
  intros I. destruct e; cbn [handle];
    try (eexists; split; [reflexivity|]).
  - now apply Inv_mousePressed.
  - now apply Inv_keyPressed.
  - now apply Inv_draw.
  - now apply Inv_primeTimeout.
  - apply (Inv_same s); [repeat split | reflexivity .. | exact I].
  - now apply Inv_videoEnded.
  - apply (Inv_same s); [repeat split | reflexivity .. | exact I].
  - now apply Inv_btnReplayPressed.
  - now apply Inv_btnTogglePressed.
  - now apply Inv_btnSnapshotPressed.
  - now apply Inv_restartVideoHidden.
  - now apply Inv_btnStatsPressed.
Qed.

Lemma Inv_run (es : list Event) :
  forall s, Inv s -> exists s', run es s = Some s' /\ Inv s'.
Proof.
  induction es as [|e es IH]; intros s I; cbn [run].
  - now exists s.
  - destruct (Inv_handle e s I) as (s1 & E & I1). rewrite E.
    now apply IH.
Qed.

Lemma Inv_start (d : Qc) : Inv (setup (initial d)).
Proof.
  split; [reflexivity|]. split; [split; reflexivity|].
  split.
  - split; [intros r []|].
    split; [|intros _; split; reflexivity].
    eexists. split; [reflexivity|]. apply (palette_mod 0).
  - intros H. discriminate H.
Qed.

End Invariants.


(** X2: in every session reached from [setup()], the scale and the tape
    line are both [null] as long as [calibStep < 4], and once [calibStep]
    is 4 they are the values that [finalizeCalibration] derives from the
    four stored corners: the geometry is never partly set and never
    stale. *)
Theorem geometry_never_partial (d : Qc) (es : list Event) :
  exists s,
    run es (setup (initial d)) = Some s /\
    ((calibStep s < 4)%nat ->
       pixelsPerMeter s = None /\ topLine s = None) /\
    (calibStep s = 4%nat ->
       exists lb lt rb rt,
         calibPts s = mkCalibPts (Some lb) (Some lt) (Some rb) (Some rt) /\
         pixelsPerMeter s = Some (scaleOf lb lt rb rt) /\
         topLine s = Some (tapeOf lt rt)).
Proof.
  destruct (Inv_run es _ (Inv_start d)) as (s & E & I1 & I2 & _).
  exists s. split; [exact E|].
  unfold cornersMatchStep in I1. unfold geometryMatchesCorners in I2.
  destruct (calibPts s) as [[lb|] [lt|] [rb|] [rt|]];
    destruct (calibStep s) as [|[|[|[|[|n]]]]]; try discriminate I1;
    (split; [intros H; try lia; exact I2 | intros H; try lia]).
  exists lb, lt, rb, rt. split; [reflexivity | exact I2].
Qed.

(** X3: in every session reached from [setup()], each completed rep has
    at least one point and a colour of the palette, and the active rep
    has a colour of the palette (so drawing never reads a colour that is
    [null]). *)
Theorem completed_reps_have_points_and_colour (d : Qc) (es : list Event) :
  exists s,
    run es (setup (initial d)) = Some s /\
    (forall r, In r (trails s) -> points r <> [] /\ coloured r) /\
    coloured (current s).
Proof.
  destruct (Inv_run es _ (Inv_start d)) as (s & E & _ & _ & (Ht & Hc & _) & _).
  exists s. split; [exact E|]. split; [exact Ht | exact Hc].
Qed.

(** X4: in every session reached from [setup()], while calibration is
    under way no rep has been completed and the active rep has no point:
    clicks and keys record nothing before the fourth corner. *)
Theorem nothing_recorded_before_calibration (d : Qc) (es : list Event) :
  exists s,
    run es (setup (initial d)) = Some s /\
    ((calibStep s < 4)%nat -> trails s = [] /\ points (current s) = []).
Proof.
  destruct (Inv_run es _ (Inv_start d)) as (s & E & _ & _ & (_ & _ & Hp) & _).
  exists s. split; [exact E | exact Hp].
Qed.

(** X5: in every session reached from [setup()], the end-screen buttons
    are visible only when the video has ended and calibration is
    complete. *)
Theorem dashboard_only_on_end_screen (d : Qc) (es : list Event) :
  exists s,
    run es (setup (initial d)) = Some s /\
    (buttonsShown s = true -> showAllAtEnd s = true /\ calibStep s = 4%nat).
Proof.
  destruct (Inv_run es _ (Inv_start d)) as (s & E & _ & _ & _ & Hd).
  exists s. split; [exact E | exact Hd].
Qed.

(** ** Recording: clicks, undo and the end of a rep *)

Section Recording.

Variables (key : string) (keyCode : Z) (s : Session).

Hypothesis Hcal : (4 <= calibStep s)%nat.

Lemma calibrated_ltb : (calibStep s <? 4)%nat = false.
Proof. now apply Nat.ltb_ge. Qed.

Lemma keyPressed_Z :
  key = "Z"%string \/ key = "z"%string ->
  keyPressed key keyCode s = keyZ s.
Proof.
  intros Hk. unfold keyPressed. rewrite calibrated_ltb.
  destruct Hk as [-> | ->]; reflexivity.
Qed.

(** X7: after calibration the key Z never fails.  On an active rep
    without points it changes nothing; otherwise it removes exactly the
    last point, so that the points before are the points after followed
    by the removed one, and it touches neither the completed reps nor the
    colour cursor. *)
Theorem undo_removes_last_point :
  key = "Z"%string \/ key = "z"%string ->
  let s' := keyPressed key keyCode s in
  (points (current s) = [] -> s' = s) /\
  (points (current s) <> [] ->
     exists p, points (current s) = points (current s') ++ [p]) /\
  trails s' = trails s /\ paletteIdx s' = paletteIdx s /\
  color (current s') = color (current s).
Proof.
  intros Hk s'. unfold s'. rewrite (keyPressed_Z Hk). unfold keyZ.
  destruct (points (current s)) as [|p0 ps] eqn:E; cbn [List.length Nat.eqb].
  - repeat split; try reflexivity. intros H. now elim H.
  - split; [discriminate|]. split; [|repeat split].
    intros _. exists (last (p0 :: ps) p0).
    unfold popPoint. cbn [current points]. rewrite E.
    apply app_removelast_last. discriminate.
Qed.

(** X6: in recording mode (primed, calibrated, playback started, video
    not ended) a click appends one point with the mouse position and the
    current video time to the active rep, and the key Z right after it
    gives back the session as it was before the click. *)
Theorem undo_reverts_click (mouseX mouseY : Qc) :
  warmed s = true -> started s = true -> showAllAtEnd s = false ->
  key = "Z"%string \/ key = "z"%string ->
  exists s1,
    mousePressed mouseX mouseY s = Some s1 /\
    points (current s1) =
      points (current s) ++ [mkRepPoint mouseX mouseY (time (vid s))] /\
    trails s1 = trails s /\
    keyPressed key keyCode s1 = s.
Proof.
  intros Hw Hst Hsa Hk.
  destruct s as [v rd w st tr [pts col pk cm wd dir]
                   sa sh cs cp ppm tl sd sv bs tg pi pt].
  cbn in Hw, Hst, Hsa, Hcal. subst w st sa.
  assert (Hlt : (cs <? 4)%nat = false) by (now apply Nat.ltb_ge).
  eexists. split.
  { unfold mousePressed.
    cbn [warmed negb calibStep started showAllAtEnd]. rewrite Hlt.
    reflexivity. }
  split; [reflexivity|]. split; [reflexivity|].
  unfold keyPressed. cbn [calibStep set_current]. rewrite Hlt.
  replace ((key =? " ")%string) with false
    by (destruct Hk as [-> | ->]; reflexivity).
  replace ((key =? "N")%string || (key =? "n")%string) with false
    by (destruct Hk as [-> | ->]; reflexivity).
  replace ((key =? "Z")%string || (key =? "z")%string) with true
    by (destruct Hk as [-> | ->]; reflexivity).
  unfold keyZ, popPoint. cbn [current points set_current color peakM
    aboveNetCM widthM direction vid ready warmed started trails
    showAllAtEnd showTrails calibStep calibPts pixelsPerMeter topLine
    statsDiv statsVisible buttonsShown toggleLabel paletteIdx primeTimers].
  rewrite length_app, removelast_last. cbn [List.length].
  replace (List.length pts + 1 =? 0)%nat with false
    by (symmetry; apply Nat.eqb_neq; lia).
  reflexivity.
Qed.

Lemma keyPressed_N_calibrated :
  key = "N"%string \/ key = "n"%string ->
  keyPressed key keyCode s = keyN s.
Proof.
  intros Hk. unfold keyPressed. rewrite calibrated_ltb.
  destruct Hk as [-> | ->]; reflexivity.
Qed.

(** X8: after calibration the key N on an active rep with at least one
    point appends that rep, unchanged, at the end of the completed reps,
    leaves the earlier ones as they are, and starts an empty active rep
    whose colour is the palette entry at the cursor; the cursor moves on
    by one. *)
Theorem endRep_appends_active_rep :
  key = "N"%string \/ key = "n"%string ->
  points (current s) <> [] ->
  let s' := keyPressed key keyCode s in
  trails s' = trails s ++ [current s] /\
  current s' = newRep (Some (nth (paletteIdx s mod 7) PALETTE [])) /\
  paletteIdx s' = S (paletteIdx s).
Proof.
  intros Hk Hne s'. unfold s'. rewrite (keyPressed_N_calibrated Hk).
  unfold keyN.
  destruct (points (current s)) as [|p0 ps] eqn:E; [now elim Hne|].
  cbn [List.length Nat.eqb]. repeat split.
Qed.

End Recording.

(** ** What one event can change *)

Section Footprint.

Ltac crush_ifs :=
  repeat match goal with
    | |- context [if ?c then _ else _] => destruct c eqn:?
    end.

Ltac no_extra :=
  exists []; rewrite app_nil_r; split; [reflexivity | cbn; lia].

Ltac frame_only :=
  crush_ifs; (split; [cbn; lia|]); intros _;
  (split; [intros _; repeat split|]); no_extra.

Lemma repData_computeRepMetrics (g : Session) (r : Rep) :
  repData (computeRepMetrics g r) = repData r.
Proof.
  unfold repData, computeRepMetrics.
  destruct (points r) as [|p0 [|p1 ps]] eqn:E; cbn; now rewrite ?E.
Qed.

Lemma map_repData_metrics (g : Session) (rs : list Rep) :
  map repData (map (computeRepMetrics g) rs) = map repData rs.
Proof.
  rewrite map_map. apply map_ext. apply repData_computeRepMetrics.
Qed.

(** The effect of a key on the cursor, the calibration and the reps. *)
Lemma footprint_keyPressed (key : string) (keyCode : Z) (s : Session) :
  let s' := keyPressed key keyCode s in
  (paletteIdx s <= paletteIdx s')%nat /\
  ((key =? "R")%string || (key =? "r")%string = false ->
   sameCalibration s s' /\
   exists extra,
     map repData (trails s') = map repData (trails s) ++ extra /\
     (List.length extra <= 1)%nat).
Proof.
  destruct s as [v rd w st tr cur sa sh cs cp ppm tl sd sv bs tg pi pt].
  unfold keyPressed, keyN, keyZ, keyR, keyEnter, restartVideoHidden,
    updateDashboard, freshCurrent, nextColour, popPoint, hideStats,
    vid_play, vid_pause, vid_seek.
  cbn [calibStep current points vid paused trails showAllAtEnd showTrails
       paletteIdx].
  crush_ifs; cbn; (split; [lia|]); intros HR; try discriminate HR;
    (split; [repeat split|]);
    try no_extra.
  all: exists [repData cur]; rewrite map_app; split; [reflexivity | cbn; lia].
Qed.

Lemma recordCorner_frame (pt : Point) (s : Session) :
  trails (recordCorner pt s) = trails s /\
  paletteIdx (recordCorner pt s) = paletteIdx s /\
  calibStep (recordCorner pt s) = calibStep s.
Proof.
  unfold recordCorner.
  destruct (calibStep s) as [|[|[|[|n]]]] eqn:E; cbn; rewrite ?E; auto.
Qed.

Lemma finalizeCalibration_frame (s s' : Session) :
  finalizeCalibration s = Some s' ->
  trails s' = trails s /\ paletteIdx s' = paletteIdx s.
Proof.
  unfold finalizeCalibration.
  destruct (LB (calibPts s)), (LT (calibPts s)), (RB (calibPts s)),
    (RT (calibPts s)); try discriminate.
  intros E. injection E as <-. split; reflexivity.
Qed.

(** The effect of a click on the cursor, the calibration and the reps. *)
Lemma footprint_mousePressed (mouseX mouseY : Qc) (s s' : Session) :
  mousePressed mouseX mouseY s = Some s' ->
  paletteIdx s' = paletteIdx s /\ trails s' = trails s /\
  (calibStep s = 4%nat -> sameCalibration s s').
Proof.
  unfold mousePressed.
  destruct (negb (warmed s)).
  { intros E. injection E as <-. unfold primeVideo.
    destruct (warmed s); repeat split. }
  destruct (calibStep s <? 4)%nat eqn:Hlt.
  { apply Nat.ltb_lt in Hlt.
    destruct (recordCorner_frame (mkPoint mouseX mouseY) s) as (E1 & E2 & E3).
    cbv zeta. cbn [calibStep set_calibStep].
    destruct (S (calibStep (recordCorner (mkPoint mouseX mouseY) s)) =? 4)%nat.
    - intros E. apply finalizeCalibration_frame in E.
      destruct E as [F1 F2]. cbn [trails paletteIdx set_calibStep] in F1, F2.
      rewrite F1, F2, E1, E2. split; [reflexivity|]. split; [reflexivity|]. intros H4. lia.
    - intros E. injection E as <-. cbn [trails paletteIdx set_calibStep].
      rewrite E1, E2. split; [reflexivity|]. split; [reflexivity|]. intros H4. lia. }
  destruct (negb (started s)).
  { intros E. injection E as <-. repeat split. }
  destruct (showAllAtEnd s); intros E; injection E as <-; repeat split.
Qed.

(** The effect of any event. *)
Lemma footprint_handle (e : Event) (s s' : Session) :
  handle e s = Some s' ->
  (paletteIdx s <= paletteIdx s')%nat /\
  (isReset e = false ->
   (calibStep s = 4%nat -> sameCalibration s s') /\
   exists extra,
     map repData (trails s') = map repData (trails s) ++ extra /\
     (List.length extra <= 1)%nat).
Proof.
  destruct e; cbn [handle isReset]; intros E.
  - destruct (footprint_mousePressed _ _ _ _ E) as (E1 & E2 & E3).
    split; [lia|]. intros _. split; [exact E3|].
    exists []. rewrite E2, app_nil_r. split; [reflexivity | cbn; lia].
  - injection E as <-.
    destruct (footprint_keyPressed key keyCode s) as [F1 F2].
    split; [exact F1|]. intros HR. destruct (F2 HR) as [G1 G2].
    split; [intros _; exact G1 | exact G2].
  - injection E as <-. unfold draw, primeVideo, updateDashboard.
    frame_only.
  - injection E as <-.
    unfold primeTimeout, draw, primeVideo, updateDashboard.
    destruct (primeTimers s); frame_only.
  - injection E as <-. split; [cbn; lia|]. intros _.
    split; [intros _; repeat split|]. no_extra.
  - injection E as <-. unfold videoEnded, updateDashboard.
    crush_ifs; (split; [cbn; lia|]); intros _;
      (split; [intros _; repeat split|]);
      exists []; rewrite app_nil_r; cbn [trails set_buttonsShown
        set_toggleLabel renderStatsTable set_statsVisible set_statsDiv
        computeAllRepMetrics set_trails set_showTrails set_showAllAtEnd];
      (split; [apply map_repData_metrics | cbn; lia]).
  - injection E as <-. split; [cbn; lia|]. intros _.
    split; [intros _; repeat split|]. no_extra.
  - injection E as <-. unfold btnReplayPressed, updateDashboard.
    frame_only.
  - injection E as <-. unfold btnTogglePressed, updateDashboard.
    frame_only.
  - injection E as <-.
    unfold btnSnapshotPressed, draw, primeVideo, updateDashboard.
    frame_only.
  - injection E as <-. unfold restartVideoHidden, updateDashboard.
    frame_only.
  - injection E as <-. split; [cbn; lia|]. intros _.
    split; [intros _; repeat split|]. no_extra.
Qed.

Lemma footprint_run (es : list Event) :
  forall s s',
    run es s = Some s' ->
    (paletteIdx s <= paletteIdx s')%nat /\
    (noReset es = true ->
     (calibStep s = 4%nat -> sameCalibration s s') /\
     exists extra,
       map repData (trails s') = map repData (trails s) ++ extra /\
       (List.length extra <= List.length es)%nat).
Proof.
  induction es as [|e es IH]; intros s s'; cbn [run noReset forallb].
  - intros E. injection E as <-. split; [lia|]. intros _.
    split; [intros _; repeat split|].
    exists []. now rewrite app_nil_r.
  - destruct (handle e s) as [s1|] eqn:E1; [|discriminate].
    intros E. destruct (footprint_handle e s s1 E1) as [F1 F2].
    destruct (IH s1 s' E) as [G1 G2].
    split; [lia|]. intros HR. apply andb_true_iff in HR.
    destruct HR as [HR1 HR2]. apply negb_true_iff in HR1.
    destruct (F2 HR1) as [F3 (x1 & F4 & F5)].
    destruct (G2 HR2) as [G3 (x2 & G4 & G5)].
    split.
    + intros H4. destruct (F3 H4) as (A1 & A2 & A3 & A4).
      assert (H4' : calibStep s1 = 4%nat) by congruence.
      destruct (G3 H4') as (B1 & B2 & B3 & B4).
      repeat split; congruence.
    + exists (x1 ++ x2). rewrite G4, F4, <- app_assoc.
      split; [reflexivity|]. rewrite length_app. cbn [List.length]. lia.
Qed.

End Footprint.

(** X11: once calibration is complete, no event other than the key R
    changes [calibStep], the four corners, the scale or the tape line:
    further clicks, keys, frames, buttons and the end of the video leave
    the calibration exactly as it is. *)
Theorem calibration_frozen_until_reset (es : list Event) (s s' : Session) :
  calibStep s = 4%nat -> noReset es = true -> run es s = Some s' ->
  calibStep s' = 4%nat /\ calibPts s' = calibPts s /\
  pixelsPerMeter s' = pixelsPerMeter s /\ topLine s' = topLine s.
Proof.
  intros H4 HR E.
  destruct (footprint_run es s s' E) as [_ F].
  destruct (F HR) as [F1 _]. destruct (F1 H4) as (A1 & A2 & A3 & A4).
  repeat split; congruence.
Qed.

Lemma calibration_frozen_until_reset_witness :
  calibStep demoSession = 4%nat /\ noReset demoEvents = true /\
  exists s',
    run demoEvents demoSession = Some s' /\
    calibStep s' = 4%nat /\ calibPts s' = calibPts demoSession /\
    pixelsPerMeter s' = pixelsPerMeter demoSession /\
    topLine s' = topLine demoSession.
Proof.
  split; [reflexivity|]. split; [reflexivity|].
  eexists. split; [vm_compute; reflexivity|].
  eapply (calibration_frozen_until_reset demoEvents demoSession);
    [reflexivity | reflexivity | vm_compute; reflexivity].
Defined.

(** X12: as long as the key R is not pressed, the points and the colour
    of a completed rep never change and no completed rep is removed or
    reordered: after any events the recorded data of the completed reps
    is what it was, followed by at most one new rep per event. *)
Theorem completed_reps_immutable (es : list Event) (s s' : Session) :
  noReset es = true -> run es s = Some s' ->
  exists extra,
    map repData (trails s') = map repData (trails s) ++ extra /\
    (List.length extra <= List.length es)%nat.
Proof.
  intros HR E.
  destruct (footprint_run es s s' E) as [_ F].
  destruct (F HR) as [_ F2]. exact F2.
Qed.

Lemma completed_reps_immutable_witness :
  noReset demoEvents = true /\
  exists s',
    run demoEvents demoSession = Some s' /\
    exists extra,
      map repData (trails s') = map repData (trails demoSession) ++ extra /\
      (List.length extra <= List.length demoEvents)%nat.
Proof.
  split; [reflexivity|].
  eexists. split; [vm_compute; reflexivity|].
  eapply (completed_reps_immutable demoEvents demoSession);
    [reflexivity | vm_compute; reflexivity].
Defined.

(** X13: the colour cursor never goes back: after any events, the reset
    included, [paletteIdx] is at least what it was. *)
Theorem colour_cursor_never_rewinds (es : list Event) (s s' : Session) :
  run es s = Some s' -> (paletteIdx s <= paletteIdx s')%nat.
Proof.
  intros E. now destruct (footprint_run es s s' E) as [F _].
Qed.

Lemma colour_cursor_never_rewinds_witness :
  exists s',
    run (demoEvents ++ [KeyPress "R" 82]) demoSession = Some s' /\
    (paletteIdx demoSession <= paletteIdx s')%nat.
Proof.
  eexists. split; [vm_compute; reflexivity|].
  eapply (colour_cursor_never_rewinds (demoEvents ++ [KeyPress "R" 82])).
  vm_compute. reflexivity.
Defined.

(** ** The colour palette *)

Section Palette.

Lemma PALETTE_NoDup : NoDup PALETTE.
Proof.
  unfold PALETTE.
  repeat (constructor; [cbn; intros H;
    repeat (destruct H as [H | H]; [discriminate H|]); exact H|]).
  constructor.
Qed.

(** X9: [nextColour] always returns an entry of the palette, and two
    calls return the same colour exactly when their cursors are equal
    modulo 7: the seven colours are pairwise distinct and come back with
    period 7, so a rep never gets the colour of the rep allocated just
    before it. *)
Theorem palette_cycles_with_period_7 (s1 s2 : Session) :
  In (fst (nextColour s1)) PALETTE /\
  (fst (nextColour s1) = fst (nextColour s2) <->
   paletteIdx s1 mod 7 = paletteIdx s2 mod 7) /\
  (paletteIdx s2 = S (paletteIdx s1) ->
   fst (nextColour s1) <> fst (nextColour s2)).
Proof.
  assert (Hlt : forall i, (i mod 7 < List.length PALETTE)%nat).
  { intros i. change (List.length PALETTE) with 7%nat.
    apply Nat.mod_upper_bound. discriminate. }
  assert (Hiff : fst (nextColour s1) = fst (nextColour s2) <->
                 paletteIdx s1 mod 7 = paletteIdx s2 mod 7).
  { cbn [nextColour fst]. change (List.length PALETTE) with 7%nat. split.
    - apply (proj1 (NoDup_nth PALETTE []) PALETTE_NoDup); apply Hlt.
    - intros E. now rewrite E. }
  split; [apply palette_mod|]. split; [exact Hiff|].
  intros E H. apply Hiff in H. rewrite E in H.
  pose proof (Nat.mod_upper_bound (paletteIdx s1) 7) as B.
  pose proof (Nat.div_mod_eq (paletteIdx s1) 7) as D1.
  pose proof (Nat.div_mod_eq (S (paletteIdx s1)) 7) as D2.
  pose proof (Nat.mod_upper_bound (S (paletteIdx s1)) 7) as B2.
  lia.
Qed.

End Palette.

(** ** Reset, replay and frame stepping *)

Section Controls.

Variable s : Session.
Hypothesis Hcal : (4 <= calibStep s)%nat.

Lemma calibrated_ltb' : (calibStep s <? 4)%nat = false.
Proof. now apply Nat.ltb_ge. Qed.


(** X14: Enter, the key S and the Replay and Restart buttons throw the
    active rep away: whatever points it holds, they are not added to the
    completed reps, which stay as they are, and a new empty active rep
    with the next palette colour takes its place. *)
Theorem unfinished_rep_discarded (e : Event) :
  In e [ KeyPress "Enter" ENTER; KeyPress "S" 83; KeyPress "s" 83;
         ButtonReplay; ButtonRestart ] ->
  exists s',
    handle e s = Some s' /\
    trails s' = trails s /\
    current s' = newRep (Some (nth (paletteIdx s mod 7) PALETTE [])) /\
    paletteIdx s' = S (paletteIdx s) /\
    showAllAtEnd s' = false /\ paused (vid s') = false /\
    time (vid s') = 0.
Proof.
  intros Hin. pose proof calibrated_ltb' as Hlt. clear Hcal.
  cbn [In] in Hin.
  destruct Hin as [<- | [<- | [<- | [<- | [<- | []]]]]];
    cbn [handle]; unfold keyPressed; rewrite ?Hlt;
    eexists; (split; [reflexivity|]);
    destruct s as [v rd w st tr cur sa sh cs cp ppm tl sd sv bs tg pi pt];
    vm_compute; repeat split.
Qed.


End Controls.

(** ** Metrics in a finite geometry with a positive scale *)

Section RepMetrics.

(** The body of [computeRepMetrics] for a rep with at least two points,
    in terms of its first and last point. *)
Lemma computeRepMetrics_two (s : Session) (rep : Rep) (p0 : RepPoint) :
  (2 <= List.length (points rep))%nat ->
  hd_error (points rep) = Some p0 ->
  let pk := peakAbove s (points rep) in
  let pl := last (points rep) p0 in
  computeRepMetrics s rep =
  mkRep (points rep) (color rep)
    (if negb (isFinite pk) then None else Some (add NET_HEIGHT_M pk))
    (if negb (isFinite pk) then None
     else Some (round (mul pk (ofZ 100))))
    (metersHorizDistance s p0 pl)
    (Some (if Qcltb (x p0) (x pl) then ArrowRight
           else if Qcltb (x pl) (x p0) then ArrowLeft else Bullet)).
Proof.
  intros Hlen Hhd. unfold computeRepMetrics.
  destruct (points rep) as [|q0 [|q1 qs]]; cbn in Hlen; try lia.
  cbn in Hhd. injection Hhd as ->. reflexivity.
Qed.


End RepMetrics.

Section FiniteGeometry.

Variables (s : Session) (p slope icpt : Qc).

Hypothesis Hppm : pixelsPerMeter s = Some (Fin p).
Hypothesis Htl : topLine s = Some (mkLine (Fin slope) (Fin icpt)).
Hypothesis Hpos : 0 < p.

Lemma scale_neq_0 : p <> 0.
Proof. intros E. rewrite E in Hpos. discriminate Hpos. Qed.

Lemma height_Fin (x0 y0 : Qc) :
  metersAboveNetAtPoint s x0 y0 = Some (Fin (heightOf p slope icpt x0 y0)).
Proof.
  unfold metersAboveNetAtPoint. rewrite Hppm, Htl.
  cbn [truthy negb m b]. pose proof scale_neq_0 as H0.
  rewrite (proj2 (Qceqb_neq _ _) H0). cbn [negb mul add].
  rewrite sub_Fin, div_Fin by exact H0. reflexivity.
Qed.

(** The loop of the running maximum, from any start that is not [NaN]. *)
Lemma peak_fold (pts : list RepPoint) :
  forall acc, acc <> NaN ->
    let r := fold_left
               (fun peakAboveM q =>
                  match metersAboveNetAtPoint s (x q) (y q) with
                  | Some a => if gt a peakAboveM then a else peakAboveM
                  | None => peakAboveM
                  end) pts acc in
    r <> NaN /\
    gt acc r = false /\
    (forall q, In q pts ->
       gt (Fin (heightOf p slope icpt (x q) (y q))) r = false) /\
    (r = acc \/
     exists q, In q pts /\ r = Fin (heightOf p slope icpt (x q) (y q))).
Proof.
  induction pts as [|q0 pts IH]; intros acc Hacc; cbn [fold_left]; cbv zeta.
  - split; [exact Hacc|]. split.
    + destruct acc; cbn; try reflexivity; try congruence.
      apply Qcltb_irrefl.
    + split; [intros q []|]. now left.
  - rewrite height_Fin.
    set (h0 := Fin (heightOf p slope icpt (x q0) (y q0))).
    destruct (gt h0 acc) eqn:G.
    + assert (Hh : h0 <> NaN) by discriminate.
      destruct (IH h0 Hh) as (R0 & R1 & R2 & R3). cbv zeta in R1, R2, R3.
      split; [exact R0|]. split; [now apply (le_gt_le h0)|].
      split.
      * intros q [<- | Hin]; [exact R1 | now apply R2].
      * right. destruct R3 as [-> | (q & Hin & ->)].
        -- exists q0. split; [now left | reflexivity].
        -- exists q. split; [now right | reflexivity].
    + destruct (IH acc Hacc) as (R0 & R1 & R2 & R3).
      cbv zeta in R1, R2, R3.
      split; [exact R0|]. split; [exact R1|].
      split.
      * intros q [<- | Hin]; [|now apply R2].
        now apply (le_le_trans h0 acc).
      * destruct R3 as [E | (q & Hin & E)]; [now left|].
        right. exists q. split; [now right | exact E].
Qed.

(** The peak of a non-empty list of points is the height of one of them
    and no point is higher. *)
Lemma peakAbove_max (pts : list RepPoint) :
  pts <> [] ->
  exists q,
    In q pts /\
    peakAbove s pts = Fin (heightOf p slope icpt (x q) (y q)) /\
    forall q', In q' pts ->
      heightOf p slope icpt (x q') (y q')
      <= heightOf p slope icpt (x q) (y q).
Proof.
  intros Hne.
  assert (H0 : NInf <> NaN) by discriminate.
  destruct (peak_fold pts NInf H0) as (_ & _ & R2 & R3).
  cbv zeta in R2, R3. fold (peakAbove s pts) in R2, R3.
  destruct R3 as [E | (q & Hin & E)].
  - exfalso. destruct pts as [|q0 pts]; [now elim Hne|].
    specialize (R2 q0 (or_introl eq_refl)). rewrite E in R2.
    discriminate R2.
  - exists q. split; [exact Hin|]. split; [exact E|].
    intros q' Hin'. specialize (R2 q' Hin'). rewrite E in R2.
    cbn in R2. now apply Qcltb_ge in R2.
Qed.

Lemma Qcdiv_pos_iff (a : Qc) : 0 < a / p <-> 0 < a.
Proof.
  split; intros H.
  - rewrite <- (Qcmult_div_r a p scale_neq_0), Qcmult_comm.
    rewrite <- (Qcmult_0_l p). now apply Qcmult_lt_compat_r.
  - rewrite <- (Qcdiv_0_l p). now apply Qcdiv_lt_compat.
Qed.

(** X16: in a geometry with a finite tape line and a positive scale, the
    peak height of a rep with at least two points is the net height plus
    the height above the net of one of its points, no point of the rep is
    higher than that point, and the peak exceeds the net height exactly
    when that point lies above the tape line on the screen (its pixel y
    is smaller than the line at its x). *)
Theorem peak_is_highest_point (rep : Rep) :
  (2 <= List.length (points rep))%nat ->
  exists q,
    In q (points rep) /\
    peakM (computeRepMetrics s rep)
      = Some (Fin (qc 243 100 + heightOf p slope icpt (x q) (y q))) /\
    (forall q', In q' (points rep) ->
       heightOf p slope icpt (x q') (y q')
       <= heightOf p slope icpt (x q) (y q)) /\
    (0 < heightOf p slope icpt (x q) (y q) <->
     y q < slope * x q + icpt).
Proof.
  intros Hlen.
  assert (Hne : points rep <> []).
  { intros E. rewrite E in Hlen. cbn in Hlen. lia. }
  destruct (peakAbove_max (points rep) Hne) as (q & Hin & Epk & Hmax).
  exists q. split; [exact Hin|].
  split.
  - destruct (points rep) as [|q0 qs] eqn:Ep; [now elim Hne|].
    rewrite (computeRepMetrics_two s rep q0); rewrite ?Ep;
      [|exact Hlen | reflexivity].
    cbv zeta. cbn [peakM]. rewrite Epk. reflexivity.
  - split; [exact Hmax|].
    unfold heightOf. rewrite Qcdiv_pos_iff. split; intros H; qc_lra.
Qed.

Lemma width_Fin (p0 pl : RepPoint) :
  metersHorizDistance s p0 pl = Some (Fin (Qcabs (x pl - x p0) / p)).
Proof.
  unfold metersHorizDistance. rewrite Hppm. cbn [truthy negb].
  pose proof scale_neq_0 as H0.
  rewrite (proj2 (Qceqb_neq _ _) H0). cbn [negb].
  rewrite sub_Fin. cbn [abs]. now rewrite div_Fin.
Qed.

Lemma Qcabs_zero_iff (a : Qc) : Qcabs a = 0 <-> a = 0.
Proof.
  unfold Qcabs. destruct (Qcltb a 0) eqn:E.
  - apply Qcltb_lt in E. split; intros H.
    + exfalso. rewrite <- (Qcopp_involutive a), H in E. discriminate E.
    + rewrite H in E. discriminate E.
  - reflexivity.
Qed.

Lemma Qcabs_sym (a c : Qc) : Qcabs (a - c) = Qcabs (c - a).
Proof.
  unfold Qcabs.
  destruct (Qcltb (a - c) 0) eqn:E1, (Qcltb (c - a) 0) eqn:E2;
    try (apply Qcltb_lt in E1); try (apply Qcltb_ge in E1);
    try (apply Qcltb_lt in E2); try (apply Qcltb_ge in E2).
  - exfalso. qc_lra.
  - ring.
  - ring.
  - apply Qcle_antisym; qc_lra.
Qed.

Lemma Qcminus_eq_0 (a c : Qc) : a - c = 0 <-> a = c.
Proof.
  split; intros H.
  - transitivity (a - c + c); [ring | rewrite H; ring].
  - rewrite H. ring.
Qed.

Lemma Qcdiv_zero_iff (a : Qc) : a / p = 0 <-> a = 0.
Proof.
  split; intros H.
  - rewrite <- (Qcmult_div_r a p scale_neq_0), H. ring.
  - rewrite H. apply Qcdiv_0_l.
Qed.

(** X18: in a geometry with a positive scale, the width of a rep with at
    least two points is the horizontal pixel distance between its first
    and its last point divided by the scale, whatever lies between them;
    it is never negative, and it is 0 exactly when the direction is the
    bullet.  The arrow points right exactly when the last point is to the
    right of the first, left exactly when it is to the left. *)
Theorem width_matches_direction (rep : Rep) (p0 : RepPoint) :
  (2 <= List.length (points rep))%nat ->
  hd_error (points rep) = Some p0 ->
  let pl := last (points rep) p0 in
  let r := computeRepMetrics s rep in
  exists w,
    widthM r = Some (Fin w) /\
    w = Qcabs (x pl - x p0) / p /\ 0 <= w /\
    (direction r = Some ArrowRight <-> x p0 < x pl) /\
    (direction r = Some ArrowLeft <-> x pl < x p0) /\
    (direction r = Some Bullet <-> w = 0).
Proof.
  intros Hlen Hhd pl r. unfold r.
  rewrite (computeRepMetrics_two s rep p0 Hlen Hhd). cbv zeta.
  fold pl. cbn [widthM direction]. rewrite width_Fin.
  eexists. split; [reflexivity|]. split; [reflexivity|].
  split; [apply Qcdiv_nonneg; [apply Qcabs_nonneg | exact Hpos]|].
  rewrite Qcdiv_zero_iff, Qcabs_zero_iff, Qcminus_eq_0.
  destruct (Qcltb (x p0) (x pl)) eqn:E1;
    [apply Qcltb_lt in E1 | apply Qcltb_ge in E1].
  - pose proof (Qclt_not_eq _ _ E1) as N1.
    split; [tauto|]. split; split; intros H; try discriminate H.
    + exfalso. qc_lra.
    + exfalso. now apply N1.
  - destruct (Qcltb (x pl) (x p0)) eqn:E2;
      [apply Qcltb_lt in E2 | apply Qcltb_ge in E2].
    + pose proof (Qclt_not_eq _ _ E2) as N2.
      split; [split; intros H; [discriminate H | exfalso; qc_lra]|].
      split; [tauto|]. split; intros H; [discriminate H|].
      exfalso. now apply N2.
    + assert (E : x pl = x p0) by (now apply Qcle_antisym).
      split; [split; intros H; [discriminate H | exfalso; qc_lra]|].
      split; [split; intros H; [discriminate H | exfalso; qc_lra]|].
      split; [intros _; exact E | reflexivity].
Qed.

Lemma peakAbove_rev (pts : list RepPoint) :
  peakAbove s (rev pts) = peakAbove s pts.
Proof.
  destruct pts as [|q0 qs] eqn:E; [reflexivity|]. rewrite <- E.
  assert (Hne : pts <> []) by (rewrite E; discriminate).
  assert (Hne' : rev pts <> []).
  { intros H. apply (f_equal (@List.length RepPoint)) in H.
    rewrite length_rev in H. rewrite E in H. discriminate H. }
  destruct (peakAbove_max pts Hne) as (q1 & I1 & E1 & M1).
  destruct (peakAbove_max (rev pts) Hne') as (q2 & I2 & E2 & M2).
  rewrite E1, E2. f_equal. apply Qcle_antisym.
  - apply M1. now apply in_rev.
  - apply M2. now apply in_rev in I1.
Qed.

Lemma rev_ends (pts : list RepPoint) (p0 : RepPoint) :
  hd_error pts = Some p0 ->
  hd_error (rev pts) = Some (last pts p0) /\ last (rev pts) (last pts p0) = p0.
Proof.
  intros Hhd. destruct pts as [|q0 qs]; [discriminate Hhd|].
  cbn in Hhd. injection Hhd as ->. split.
  - rewrite (app_removelast_last p0 (l := p0 :: qs)) at 1 by discriminate.
    rewrite rev_app_distr. reflexivity.
  - cbn [rev]. apply last_last.
Qed.

(** X19: in a geometry with a finite tape line and a positive scale,
    metrics do not depend on the order in which a rep was clicked except
    for the arrow: the rep with its points in the opposite order gets the
    same peak height, the same centimetres above the net and the same
    width, and the opposite direction. *)
Theorem reversed_rep_metrics (rep : Rep) :
  let r1 := computeRepMetrics s rep in
  let r2 := computeRepMetrics s (reversed rep) in
  peakM r2 = peakM r1 /\ aboveNetCM r2 = aboveNetCM r1 /\
  widthM r2 = widthM r1 /\
  direction r2 = option_map flipDirection (direction r1).
Proof.
  destruct (le_lt_dec 2 (List.length (points rep))) as [Hlen | Hlen].
  - destruct (points rep) as [|p0 qs] eqn:Ep; [cbn in Hlen; lia|].
    assert (Hhd : hd_error (points rep) = Some p0) by (now rewrite Ep).
    destruct (rev_ends (points rep) p0 Hhd) as [R1 R2].
    assert (Hlen' : (2 <= List.length (points (reversed rep)))%nat).
    { cbn [reversed points]. rewrite length_rev, Ep. exact Hlen. }
    rewrite <- Ep in Hlen. cbv zeta.
    rewrite (computeRepMetrics_two s rep p0 Hlen Hhd).
    rewrite (computeRepMetrics_two s (reversed rep) (last (points rep) p0)
               Hlen' R1).
    cbv zeta. cbn [reversed points peakM aboveNetCM widthM direction].
    rewrite peakAbove_rev, R2, !width_Fin, Qcabs_sym.
    repeat (split; [reflexivity|]). cbn [option_map]. f_equal.
    destruct (Qcltb (x p0) (x (last (points rep) p0))) eqn:E1,
             (Qcltb (x (last (points rep) p0)) (x p0)) eqn:E2;
      try reflexivity.
    exfalso. apply Qcltb_lt in E1, E2. qc_lra.
  - cbv zeta. unfold computeRepMetrics, reversed. cbn [points].
    destruct (points rep) as [|q0 [|q1 qs]]; cbn in Hlen; try lia;
      cbn; repeat split.
Qed.

End FiniteGeometry.

(** ** Running the metrics pass again *)

Section MetricsPass.

Lemma computeRepMetrics_geometry (s s' : Session) (r : Rep) :
  pixelsPerMeter s' = pixelsPerMeter s -> topLine s' = topLine s ->
  computeRepMetrics s' r = computeRepMetrics s r.
Proof.
  intros E1 E2.
  unfold computeRepMetrics, peakAbove, metersAboveNetAtPoint,
    metersHorizDistance.
  now rewrite E1, E2.
Qed.

Lemma computeRepMetrics_twice (s : Session) (r : Rep) :
  computeRepMetrics s (computeRepMetrics s r) = computeRepMetrics s r.
Proof.
  destruct r as [pts col pk cm wd dir].
  destruct pts as [|p0 [|p1 ps]]; reflexivity.
Qed.

(** X20: [computeAllRepMetrics] can be run again at no cost: a second
    pass gives the session of the first pass, and a pass changes neither
    the number of completed reps nor the points or the colour of any of
    them. *)
Theorem computeAllRepMetrics_idempotent (s : Session) :
  computeAllRepMetrics (computeAllRepMetrics s) = computeAllRepMetrics s /\
  map repData (trails (computeAllRepMetrics s)) = map repData (trails s) /\
  List.length (trails (computeAllRepMetrics s)) = List.length (trails s).
Proof.
  split; [|split].
  - unfold computeAllRepMetrics at 1 3.
    cbn [trails computeAllRepMetrics set_trails].
    rewrite map_map.
    rewrite (map_ext
               (fun r => computeRepMetrics (computeAllRepMetrics s)
                           (computeRepMetrics s r))
               (computeRepMetrics s)).
    + destruct s. reflexivity.
    + intros r.
      rewrite (computeRepMetrics_geometry s (computeAllRepMetrics s))
        by reflexivity.
      apply computeRepMetrics_twice.
  - cbn [trails computeAllRepMetrics set_trails].
    apply map_repData_metrics.
  - cbn [trails computeAllRepMetrics set_trails]. apply length_map.
Qed.

End MetricsPass.

(** ** The summary lines of the stats table *)

Section SummaryLines.


Lemma mean_None (vs : list jsnum) : mean vs = None <-> vs = [].
Proof. destruct vs; cbn; split; congruence. Qed.







End SummaryLines.

(** ** The calibration corners in the derived geometry *)

Section CornerHeights.

Variables (s : Session) (lb lt rb rt : Point).

Hypothesis Hppm : pixelsPerMeter s = Some (scaleOf lb lt rb rt).
Hypothesis Htl : topLine s = Some (tapeOf lt rt).
Hypothesis Hscale : scaleOf lb lt rb rt <> Fin 0.
Hypothesis Hx : ptx lt <> ptx rt.





End CornerHeights.

(** ** The theorems at the sessions of the scenario *)

Section DemoGeometry.

Lemma demoActive_scale :
  pixelsPerMeter demoActive = Some (Fin (qc 300 1 / qc 243 100)).
Proof. exact (f_equal Some scenario_scale). Qed.

Lemma demoActive_tape :
  topLine demoActive = Some (mkLine (Fin (qc 1 30)) (Fin (qc 290 3))).
Proof. exact (f_equal Some scenario_tape). Qed.

Lemma demo_scale_pos : 0 < qc 300 1 / qc 243 100.
Proof. reflexivity. Qed.



End DemoGeometry.

Lemma undo_reverts_click_witness :
  (4 <= calibStep demoRecording)%nat /\
  warmed demoRecording = true /\ started demoRecording = true /\
  showAllAtEnd demoRecording = false /\
  exists s1,
    mousePressed (qc 400 1) (qc 50 1) demoRecording = Some s1 /\
    points (current s1) =
      points (current demoRecording)
      ++ [mkRepPoint (qc 400 1) (qc 50 1) (time (vid demoRecording))] /\
    trails s1 = trails demoRecording /\
    keyPressed "z" 90 s1 = demoRecording.
Proof.
  split; [cbn; lia|]. repeat (split; [reflexivity|]).
  apply (undo_reverts_click "z" 90 demoRecording);
    [cbn; lia | reflexivity | reflexivity | reflexivity | right; reflexivity].
Defined.

Lemma undo_removes_last_point_witness :
  (4 <= calibStep demoActive)%nat /\
  let s' := keyPressed "Z" 90 demoActive in
  (points (current demoActive) = [] -> s' = demoActive) /\
  (points (current demoActive) <> [] ->
     exists p, points (current demoActive) = points (current s') ++ [p]) /\
  trails s' = trails demoActive /\ paletteIdx s' = paletteIdx demoActive /\
  color (current s') = color (current demoActive).
Proof.
  split; [cbn; lia|].
  apply (undo_removes_last_point "Z" 90 demoActive);
    [cbn; lia | left; reflexivity].
Defined.

Lemma endRep_appends_active_rep_witness :
  (4 <= calibStep demoActive)%nat /\ points (current demoActive) <> [] /\
  let s' := keyPressed "N" 78 demoActive in
  trails s' = trails demoActive ++ [current demoActive] /\
  current s' =
    newRep (Some (nth (paletteIdx demoActive mod 7) PALETTE [])) /\
  paletteIdx s' = S (paletteIdx demoActive).
Proof.
  split; [cbn; lia|]. split; [discriminate|].
  apply (endRep_appends_active_rep "N" 78 demoActive);
    [cbn; lia | left; reflexivity | discriminate].
Defined.


Lemma unfinished_rep_discarded_witness :
  (4 <= calibStep demoActive)%nat /\
  In (KeyPress "Enter" ENTER)
     [ KeyPress "Enter" ENTER; KeyPress "S" 83; KeyPress "s" 83;
       ButtonReplay; ButtonRestart ] /\
  exists s',
    handle (KeyPress "Enter" ENTER) demoActive = Some s' /\
    trails s' = trails demoActive /\
    current s' =
      newRep (Some (nth (paletteIdx demoActive mod 7) PALETTE [])) /\
    paletteIdx s' = S (paletteIdx demoActive) /\
    showAllAtEnd s' = false /\ paused (vid s') = false /\
    time (vid s') = 0.
Proof.
  split; [cbn; lia|]. split; [left; reflexivity|].
  apply (unfinished_rep_discarded demoActive);
    [cbn; lia | left; reflexivity].
Defined.


Lemma peak_is_highest_point_witness :
  pixelsPerMeter demoActive = Some (Fin (qc 300 1 / qc 243 100)) /\
  topLine demoActive = Some (mkLine (Fin (qc 1 30)) (Fin (qc 290 3))) /\
  0 < qc 300 1 / qc 243 100 /\
  (2 <= List.length (points demoRep))%nat /\
  exists q,
    In q (points demoRep) /\
    peakM (computeRepMetrics demoActive demoRep)
      = Some (Fin (qc 243 100
                   + heightOf (qc 300 1 / qc 243 100) (qc 1 30) (qc 290 3)
                       (x q) (y q))) /\
    (forall q', In q' (points demoRep) ->
       heightOf (qc 300 1 / qc 243 100) (qc 1 30) (qc 290 3) (x q') (y q')
       <= heightOf (qc 300 1 / qc 243 100) (qc 1 30) (qc 290 3)
            (x q) (y q)) /\
    (0 < heightOf (qc 300 1 / qc 243 100) (qc 1 30) (qc 290 3) (x q) (y q)
     <-> y q < qc 1 30 * x q + qc 290 3).
Proof.
  split; [exact demoActive_scale|]. split; [exact demoActive_tape|].
  split; [reflexivity|]. split; [cbn; lia|].
  apply (peak_is_highest_point demoActive _ _ _ demoActive_scale
           demoActive_tape demo_scale_pos demoRep).
  cbn. lia.
Defined.

Lemma width_matches_direction_witness :
  pixelsPerMeter demoActive = Some (Fin (qc 300 1 / qc 243 100)) /\
  0 < qc 300 1 / qc 243 100 /\
  (2 <= List.length (points demoRep))%nat /\
  hd_error (points demoRep)
    = Some (mkRepPoint (qc 400 1) (qc 50 1) (qc 2 1)) /\
  let p0 := mkRepPoint (qc 400 1) (qc 50 1) (qc 2 1) in
  let pl := last (points demoRep) p0 in
  let r := computeRepMetrics demoActive demoRep in
  exists w,
    widthM r = Some (Fin w) /\
    w = Qcabs (x pl - x p0) / (qc 300 1 / qc 243 100) /\ 0 <= w /\
    (direction r = Some ArrowRight <-> x p0 < x pl) /\
    (direction r = Some ArrowLeft <-> x pl < x p0) /\
    (direction r = Some Bullet <-> w = 0).
Proof.
  split; [exact demoActive_scale|]. split; [reflexivity|].
  split; [cbn; lia|]. split; [reflexivity|].
  apply (width_matches_direction demoActive _ demoActive_scale
           demo_scale_pos demoRep);
    [cbn; lia | reflexivity].
Defined.

Lemma reversed_rep_metrics_witness :
  pixelsPerMeter demoActive = Some (Fin (qc 300 1 / qc 243 100)) /\
  topLine demoActive = Some (mkLine (Fin (qc 1 30)) (Fin (qc 290 3))) /\
  0 < qc 300 1 / qc 243 100 /\
  let r1 := computeRepMetrics demoActive demoRep in
  let r2 := computeRepMetrics demoActive (reversed demoRep) in
  peakM r2 = peakM r1 /\ aboveNetCM r2 = aboveNetCM r1 /\
  widthM r2 = widthM r1 /\
  direction r2 = option_map flipDirection (direction r1).
Proof.
  split; [exact demoActive_scale|]. split; [exact demoActive_tape|].
  split; [reflexivity|].
  exact (reversed_rep_metrics demoActive _ _ _ demoActive_scale
           demoActive_tape demo_scale_pos demoRep).
Defined.



(** ** The end of the video *)

Section EndScreen.

Variable s : Session.
Hypothesis Hcal : calibStep s = 4%nat.

(** X22: when the video ends in a calibrated session, the metrics of the
    completed reps are computed in the geometry of the session and the
    stats shown are their summary; the active rep, with or without
    points, is left out of the completed reps and stays active; the end
    screen shows trails and buttons, the toggle button reading Hide; and
    from then on a click in a primed and started session records
    nothing. *)
Theorem video_end_shows_stats (mouseX mouseY : Qc) :
  let s' := videoEnded s in
  trails s' = map (computeRepMetrics s) (trails s) /\
  current s' = current s /\
  statsDiv s' = mkStatsDiv true (Some (statsSummary (trails s'))) /\
  statsVisible s' = true /\ showAllAtEnd s' = true /\
  showTrails s' = true /\ buttonsShown s' = true /\
  toggleLabel s' = LabelHide /\
  (warmed s = true -> started s = true ->
   mousePressed mouseX mouseY s' = Some s').
Proof.
  intros s'.
  assert (E : s' = set_toggleLabel LabelHide
                     (set_buttonsShown true
                        (renderStatsTable
                           (computeAllRepMetrics
                              (set_showTrails true
                                 (set_showAllAtEnd true s)))))).
  { unfold s', videoEnded, updateDashboard.
    cbn [showAllAtEnd calibStep showTrails renderStatsTable
         computeAllRepMetrics set_statsVisible set_statsDiv set_trails
         set_showTrails set_showAllAtEnd].
    rewrite Hcal. reflexivity. }
  assert (Et : trails s' = map (computeRepMetrics s) (trails s)).
  { rewrite E. cbn [trails set_toggleLabel set_buttonsShown
      renderStatsTable set_statsVisible set_statsDiv computeAllRepMetrics
      set_trails set_showTrails set_showAllAtEnd].
    apply map_ext. intros r.
    now apply computeRepMetrics_geometry. }
  split; [exact Et|].
  split; [rewrite E; reflexivity|].
  split.
  { rewrite Et, E. reflexivity. }
  split; [rewrite E; reflexivity|]. split; [rewrite E; reflexivity|].
  split; [rewrite E; reflexivity|]. split; [rewrite E; reflexivity|].
  split; [rewrite E; reflexivity|].
  intros Hw Hst. unfold mousePressed.
  replace (warmed s') with true by (rewrite E; symmetry; exact Hw).
  replace (calibStep s') with 4%nat by (rewrite E; symmetry; exact Hcal).
  replace (started s') with true by (rewrite E; symmetry; exact Hst).
  replace (showAllAtEnd s') with true by (rewrite E; reflexivity).
  reflexivity.
Qed.

End EndScreen.

Lemma video_end_shows_stats_witness :
  calibStep demoActive = 4%nat /\
  let s' := videoEnded demoActive in
  trails s' = map (computeRepMetrics demoActive) (trails demoActive) /\
  current s' = current demoActive /\
  statsDiv s' = mkStatsDiv true (Some (statsSummary (trails s'))) /\
  statsVisible s' = true /\ showAllAtEnd s' = true /\
  showTrails s' = true /\ buttonsShown s' = true /\
  toggleLabel s' = LabelHide /\
  (warmed demoActive = true -> started demoActive = true ->
   mousePressed (qc 400 1) (qc 50 1) s' = Some s').
Proof.
  split; [reflexivity|].
  exact (video_end_shows_stats demoActive eq_refl (qc 400 1) (qc 50 1)).
Defined.
